(** * Phishing e-mail detector: a shallow embedding of the detection and
      model-lifecycle engine, with the properties its specification states.

    The development follows the Python sources:
    - [backend/utils/ioc_extractor.py]  (module [IOCExtractor]),
    - [backend/app.py]                  (module [App]),
    - [ml/feature_extraction.py]        (module [FeatureExtractor]),
    - [ml/phishing_ml_model.py]         (module [SimplePhishingML]),
    - [extras/auto_retrain/auto_retrain.py] (module [AutoRetrainer]).

    Text is modelled as [string] over ASCII characters; Python numbers are
    integers ([Z]) or, where the source produces a float, exact rationals
    ([Q]); binary64 rounding and NaN are outside the model.  Python
    exceptions are values of [exn] carried by the [result] monad. *)

From Stdlib Require Import String Ascii List ZArith QArith Lia Bool.
From Stdlib Require Import Sorting.Mergesort Sorting.Sorted Sorting.Permutation.
From stdpp Require Import gmap strings list sorting.

Import ListNotations.
Local Open Scope string_scope.

(* ===================================================================== *)
(** ** Python exceptions and the error monad *)
(* ===================================================================== *)

Inductive exn : Type :=
| ValueError (msg : string)
| ZeroDivisionError
| IndexError
| FileNotFoundError
| LibraryError (msg : string).   (* anything raised inside scikit-learn / numpy *)

Inductive result (A : Type) : Type :=
| Ok (a : A)
| Raise (e : exn).
Arguments Ok {A} a.
Arguments Raise {A} e.

#[global] Instance result_ret : MRet result := fun A a => Ok a.
#[global] Instance result_bind : MBind result := fun A B f m =>
  match m with
  | Ok a => f a
  | Raise e => Raise e
  end.

#[global] Instance result_fmap : FMap result := fun A B f m =>
  match m with
  | Ok a => Ok (f a)
  | Raise e => Raise e
  end.

(** [try: body except Exception as e: handler] *)
Definition try_except {A : Type} (body : result A) (handler : exn → result A)
  : result A :=
  match body with
  | Ok a => Ok a
  | Raise e => handler e
  end.

(* ===================================================================== *)
(** ** Python string primitives *)
(* ===================================================================== *)

Module PyStr.

Definition code (c : ascii) : nat := nat_of_ascii c.

Definition in_range (lo hi c : ascii) : bool :=
  (code lo <=? code c)%nat && (code c <=? code hi)%nat.

Fixpoint one_of (chars : string) (c : ascii) : bool :=
  match chars with
  | EmptyString => false
  | String d rest => Ascii.eqb c d || one_of rest c
  end.

Definition is_upper (c : ascii) : bool := in_range "A" "Z" c.
Definition is_lower (c : ascii) : bool := in_range "a" "z" c.
Definition is_digit (c : ascii) : bool := in_range "0" "9" c.

Definition lower_char (c : ascii) : ascii :=
  if is_upper c then ascii_of_nat (code c + 32) else c.
Definition upper_char (c : ascii) : ascii :=
  if is_lower c then ascii_of_nat (code c - 32) else c.

(** [s.lower()] *)
Fixpoint lower (s : string) : string :=
  match s with
  | EmptyString => EmptyString
  | String c rest => String (lower_char c) (lower rest)
  end.

(** [sub in s] *)
Fixpoint contains (sub s : string) : bool :=
  String.prefix sub s ||
  match s with
  | EmptyString => false
  | String _ rest => contains sub rest
  end.

(** [s.count(sub)]: occurrences counted left to right without overlap.
    [skip] is the number of characters still covered by the last hit. *)
Fixpoint count_from (sub : string) (skip : nat) (s : string) : Z :=
  match s with
  | EmptyString => 0
  | String _ rest =>
      match skip with
      | S n => count_from sub n rest
      | O => if String.prefix sub s
             then 1 + count_from sub (String.length sub - 1) rest
             else count_from sub 0 rest
      end
  end%Z.

Definition count (s sub : string) : Z := count_from sub 0 s.

(** [len(s)] *)
Definition len (s : string) : Z := Z.of_nat (String.length s).

(** Characters [str.split()] treats as separators. *)
Definition is_space (c : ascii) : bool :=
  let n := code c in
  ((9 <=? n) && (n <=? 13) || (28 <=? n) && (n <=? 32))%nat.

(** [s.split()]: maximal runs of non-blank characters.  [cur] is the
    word being read, in reverse. *)
Fixpoint split_from (cur : list ascii) (s : string) : list string :=
  let flush := match cur with
               | [] => []
               | _ => [string_of_list_ascii (rev cur)]
               end in
  match s with
  | EmptyString => flush
  | String c rest =>
      if is_space c then flush ++ split_from [] rest
      else split_from (c :: cur) rest
  end.

Definition split (s : string) : list string := split_from [] s.

(** [sum(1 for c in s if p(c))] *)
Fixpoint count_chars (p : ascii → bool) (s : string) : Z :=
  match s with
  | EmptyString => 0
  | String c rest => (if p c then 1 else 0) + count_chars p rest
  end%Z.

(** [any(w in text for w in words)] *)
Definition any_in (words : list string) (text : string) : bool :=
  existsb (fun w => contains w text) words.

(** [sum(1 for w in words if w in text)] *)
Definition hits (words : list string) (text : string) : Z :=
  Z.of_nat (List.length (List.filter (fun w => contains w text) words)).

End PyStr.

(* ===================================================================== *)
(** ** The fragment of Python's [re] the program uses *)
(* ===================================================================== *)

Module Re.

(** Patterns: character classes, concatenation, ordered alternation,
    greedy bounded or unbounded repetition, and the word boundary [\b]. *)
Inductive regex : Type :=
| Eps
| Cls (p : ascii → bool)
| Cat (r1 r2 : regex)
| Alt (r1 r2 : regex)
| Rep (lo : nat) (hi : option nat) (r : regex)
| WordB.

Definition is_word (c : option ascii) : bool :=
  match c with
  | None => false
  | Some c => PyStr.is_upper c || PyStr.is_lower c || PyStr.is_digit c
              || Ascii.eqb c "_"
  end.

Definition peek (s : string) : option ascii :=
  match s with
  | EmptyString => None
  | String c _ => Some c
  end.

(** A class under [re.IGNORECASE] accepts a character when either case
    variant is in the class. *)
Definition cls_accepts (icase : bool) (p : ascii → bool) (c : ascii) : bool :=
  p c || (icase && (p (PyStr.lower_char c) || p (PyStr.upper_char c))).

Definition dec_hi (hi : option nat) : option nat :=
  match hi with
  | None => None
  | Some n => Some (Nat.pred n)
  end.

Definition hi_exhausted (hi : option nat) : bool :=
  match hi with
  | Some O => true
  | _ => false
  end.

(** What the rest of a pattern does from a position: it is given the
    character before the position, whether the current iteration of the
    enclosing repetition has consumed input, and the input left; it answers
    the input left after the whole match, or [None]. *)
Definition cont : Type := option ascii → bool → string → option string.

(** Greedy repetition [r{lo,hi}] of a matcher [body]: as many iterations
    as possible first, each of which must consume input (an iteration that
    matches the empty string ends the loop, as in [re]); [fuel] bounds the
    number of iterations, and the length of the input is enough. *)
Fixpoint iterate (body : option ascii → bool → string → cont → option string)
    (k : cont) (fuel lo : nat) (hi : option nat)
    (prev : option ascii) (moved : bool) (s : string) {struct fuel}
  : option string :=
  let stop := if (lo =? 0)%nat then k prev moved s else None in
  if hi_exhausted hi then stop
  else
    match fuel with
    | O => stop
    | S fuel' =>
        match
          body prev false s
            (fun prev' moved' s' =>
               if moved'
               then iterate body k fuel' (Nat.pred lo) (dec_hi hi) prev' true s'
               else None)
        with
        | Some out => Some out
        | None => stop
        end
    end.

(** Backtracking matcher in continuation-passing style.  [prev] is the
    character before the current position (for [\b]); [k] decides whether
    the rest of the pattern matches from the position reached.
    Alternatives are tried left to right, as in [re]. *)
Fixpoint run (icase : bool) (r : regex) (prev : option ascii) (moved : bool)
    (s : string) (k : cont) {struct r} : option string :=
  match r with
  | Eps => k prev moved s
  | Cls p =>
      match s with
      | EmptyString => None
      | String c rest =>
          if cls_accepts icase p c then k (Some c) true rest else None
      end
  | Cat r1 r2 =>
      run icase r1 prev moved s
        (fun prev' moved' s' => run icase r2 prev' moved' s' k)
  | Alt r1 r2 =>
      match run icase r1 prev moved s k with
      | Some out => Some out
      | None => run icase r2 prev moved s k
      end
  | Rep lo hi r1 =>
      iterate (run icase r1) k (String.length s) lo hi prev moved s
  | WordB =>
      if xorb (is_word prev) (is_word (peek s)) then k prev moved s else None
  end.

(** [Some rest] when the pattern matches at the start of [s], [rest]
    being the input left after the match. *)
Definition match_here (icase : bool) (r : regex) (prev : option ascii)
    (s : string) : option string :=
  run icase r prev false s (fun _ _ rest => Some rest).

Definition matched_text (s rest : string) : string :=
  String.substring 0 (String.length s - String.length rest) s.

(** Scan for successive non-overlapping matches.  [skip] counts the
    characters of the current position still inside the last match. *)
Fixpoint scan (icase : bool) (r : regex) (skip : nat) (prev : option ascii)
    (s : string) : list string :=
  match s with
  | EmptyString =>
      match skip, match_here icase r prev s with
      | O, Some _ => [""]
      | _, _ => []
      end
  | String c rest =>
      match skip with
      | S n => scan icase r n (Some c) rest
      | O =>
          match match_here icase r prev s with
          | Some after =>
              matched_text s after
                :: scan icase r
                     (String.length s - String.length after - 1) (Some c) rest
          | None => scan icase r 0 (Some c) rest
          end
      end
  end.

(** [re.findall(pattern, text, flags)] for a pattern without groups. *)
Definition findall (icase : bool) (r : regex) (text : string) : list string :=
  scan icase r 0 None text.

(** [re.search(pattern, text) is not None] *)
Fixpoint search_from (icase : bool) (r : regex) (prev : option ascii)
    (s : string) : bool :=
  match match_here icase r prev s with
  | Some _ => true
  | None =>
      match s with
      | EmptyString => false
      | String c rest => search_from icase r (Some c) rest
      end
  end.

Definition search (icase : bool) (r : regex) (text : string) : bool :=
  search_from icase r None text.

(** Pattern combinators. *)
Definition chr (c : ascii) : regex := Cls (Ascii.eqb c).
Definition range (lo hi : ascii) : regex := Cls (PyStr.in_range lo hi).
Definition opt (r : regex) : regex := Rep 0 (Some 1) r.
Definition plus (r : regex) : regex := Rep 1 None r.
Definition exactly (n : nat) (r : regex) : regex := Rep n (Some n) r.
Definition at_least (n : nat) (r : regex) : regex := Rep n None r.
Definition between (lo hi : nat) (r : regex) : regex := Rep lo (Some hi) r.

Fixpoint lit (s : string) : regex :=
  match s with
  | EmptyString => Eps
  | String c rest => Cat (chr c) (lit rest)
  end.

Fixpoint seq (rs : list regex) : regex :=
  match rs with
  | [] => Eps
  | [r] => r
  | r :: rest => Cat r (seq rest)
  end.

Fixpoint alts (r : regex) (rs : list regex) : regex :=
  match rs with
  | [] => r
  | r' :: rest => Alt r (alts r' rest)
  end.

End Re.

(* ===================================================================== *)
(** ** Python dictionaries, in insertion order *)
(* ===================================================================== *)

Module PyDict.
Section Dict.
Context {V : Type}.

(** [d[k] = v]: an existing key keeps its place. *)
Fixpoint set (d : list (string * V)) (k : string) (v : V) : list (string * V) :=
  match d with
  | [] => [(k, v)]
  | (k', v') :: rest =>
      if String.eqb k' k then (k, v) :: rest else (k', v') :: set rest k v
  end.

(** [d.get(k)] *)
Fixpoint get (d : list (string * V)) (k : string) : option V :=
  match d with
  | [] => None
  | (k', v') :: rest => if String.eqb k' k then Some v' else get rest k
  end.

(** [d.keys()] *)
Definition keys (d : list (string * V)) : list string := map fst d.

(** [{**d1, **d2}] *)
Definition update (d1 d2 : list (string * V)) : list (string * V) :=
  fold_left (fun d kv => set d (fst kv) (snd kv)) d2 d1.

(** [d[k]] *)
Definition item (d : list (string * V)) (k : string) : result V :=
  match get d k with
  | Some v => Ok v
  | None => Raise (LibraryError ("KeyError: " +:+ k))
  end.
End Dict.
End PyDict.

(* ===================================================================== *)
(** ** Shared data: parsed e-mails and indicators *)
(* ===================================================================== *)

(** One entry of [email_data['attachments']]. *)
Module Attachment.
Record attachment : Type := {
  filename : string;
  size : Z;
  content_type : string;
  md5_hash : string
}.
End Attachment.
Abbreviation attachment := Attachment.attachment.

(** The [email_data] dictionary.  A key that is absent from the dictionary
    is [None]; [default d (key e)] is Python's [email_data.get('key', d)].
    [headers] holds the text [str(email_data['headers'])]. *)
Record email_data : Type := {
  sender : option string;
  subject : option string;
  body : option string;
  headers : option string;
  recipients : option (list string);
  attachments : option (list attachment);
  full_text : option string;
  ioc_count : option Z;
  has_ipv4 : option bool;
  has_url : option bool;
  has_email : option bool;
  has_hash : option bool;
  ipv4_count : option Z;
  url_count : option Z;
  email_count : option Z;
  domain_count : option Z
}.


(** An extracted indicator: [{'ioc_type': .., 'ioc_value': .., 'severity': ..}]. *)
Record indicator : Type := {
  ioc_type : string;
  ioc_value : string;
  severity : string
}.

(* ===================================================================== *)
(** ** backend/utils/ioc_extractor.py *)
(* ===================================================================== *)

Module IOCExtractor.
Import Re.

Definition digit : regex := range "0" "9".
Definition hex : regex := Cls (fun c => PyStr.in_range "a" "f" c
                                        || PyStr.in_range "A" "F" c
                                        || PyStr.is_digit c).
Definition alpha : regex := Cls (fun c => PyStr.is_lower c || PyStr.is_upper c).
Definition alnum : regex :=
  Cls (fun c => PyStr.is_lower c || PyStr.is_upper c || PyStr.is_digit c).

(** [(?:25[0-5]|2[0-4][0-9]|[01]?[0-9][0-9]?)] *)
Definition octet : regex :=
  alts (seq [lit "25"; range "0" "5"])
       [seq [chr "2"; range "0" "4"; digit];
        seq [opt (Cls (PyStr.one_of "01")); digit; opt digit]].

(** [\b(?:(?:25[0-5]|2[0-4][0-9]|[01]?[0-9][0-9]?)\.){3}(?:25[0-5]|2[0-4][0-9]|[01]?[0-9][0-9]?)\b] *)
Definition ipv4_pattern : regex :=
  seq [WordB; exactly 3 (seq [octet; chr "."]); octet; WordB].

(** [http[s]?://(?:[a-zA-Z]|[0-9]|[$-_@.&+]|[!*\\(\\),]|(?:%[0-9a-fA-F][0-9a-fA-F]))+] *)
Definition url_pattern : regex :=
  seq [lit "http"; opt (chr "s"); lit "://";
       plus (alts alpha
               [digit;
                Cls (fun c => PyStr.in_range "$" "_" c || PyStr.one_of "@.&+" c);
                Cls (PyStr.one_of "!*\(),");
                seq [chr "%"; hex; hex]])].

(** [\b[A-Za-z0-9._%+-]+@[A-Za-z0-9.-]+\.[A-Z|a-z]{2,}\b] *)
Definition email_pattern : regex :=
  seq [WordB;
       plus (Cls (fun c => PyStr.is_upper c || PyStr.is_lower c
                           || PyStr.is_digit c || PyStr.one_of "._%+-" c));
       chr "@";
       plus (Cls (fun c => PyStr.is_upper c || PyStr.is_lower c
                           || PyStr.is_digit c || PyStr.one_of ".-" c));
       chr ".";
       at_least 2 (Cls (fun c => PyStr.is_upper c || PyStr.one_of "|" c
                                 || PyStr.is_lower c));
       WordB].

(** [\b(?:[a-zA-Z0-9](?:[a-zA-Z0-9\-]{0,61}[a-zA-Z0-9])?\.)+[a-zA-Z]{2,}\b] *)
Definition domain_pattern : regex :=
  seq [WordB;
       plus (seq [alnum;
                  opt (seq [between 0 61
                              (Cls (fun c => PyStr.is_lower c || PyStr.is_upper c
                                             || PyStr.is_digit c
                                             || PyStr.one_of "-" c));
                            alnum]);
                  chr "."]);
       at_least 2 alpha;
       WordB].

(** [\b[a-fA-F0-9]{n}\b] *)
Definition hash_pattern (n : nat) : regex := seq [WordB; exactly n hex; WordB].

(** [self.patterns], in the order the dictionary literal lists them. *)
Definition patterns : list (string * regex) :=
  [("ipv4", ipv4_pattern);
   ("url", url_pattern);
   ("email", email_pattern);
   ("domain", domain_pattern);
   ("md5", hash_pattern 32);
   ("sha1", hash_pattern 40);
   ("sha256", hash_pattern 64)].

(** Inserting a key into a dictionary: a key already present keeps its
    place, a new key goes last. *)
Definition add_key (keys : list string) (k : string) : list string :=
  if existsb (String.eqb k) keys then keys else keys ++ [k].

(** [list(dict.fromkeys(matches))] *)
Definition fromkeys (matches : list string) : list string :=
  fold_left add_key matches [].

(** [extract_iocs]: the dictionary from indicator type to the
    de-duplicated matches, types without a match left out. *)
Fixpoint extract_with (pats : list (string * regex)) (text : string)
  : list (string * list string) :=
  match pats with
  | [] => []
  | (ty, pattern) :: rest =>
      let matches := findall true pattern text in
      let unique_matches := fromkeys matches in
      match unique_matches with
      | [] => extract_with rest text
      | _ => (ty, unique_matches) :: extract_with rest text
      end
  end.

Definition extract_iocs (text : string) : list (string * list string) :=
  extract_with patterns text.

Definition suspicious_tlds : list string :=
  [".tk"; ".ml"; ".ga"; ".cf"; ".gq"; ".xyz"; ".top"].

(** [_determine_severity] *)
Definition _determine_severity (ioc_type value : string) : string :=
  if existsb (String.eqb ioc_type) ["md5"; "sha1"; "sha256"] then "high"
  else if String.eqb ioc_type "ipv4" then "medium"
  else if String.eqb ioc_type "url" then
    if PyStr.any_in suspicious_tlds (PyStr.lower value) then "high" else "medium"
  else if String.eqb ioc_type "domain" then
    if PyStr.any_in suspicious_tlds (PyStr.lower value) then "high" else "low"
  else "low".

(** The text [extract_from_email] scans: each present field followed by
    a newline. *)
Definition field_line (f : option string) : string :=
  match f with
  | Some s => s +:+ String "010" ""
  | None => ""
  end.

Definition combined_text (e : email_data) : string :=
  field_line (sender e) +:+ field_line (subject e)
    +:+ field_line (body e) +:+ field_line (headers e).

(** [extract_from_email] *)
Definition extract_from_email (e : email_data) : list indicator :=
  let extracted_iocs := extract_iocs (combined_text e) in
  flat_map
    (fun '(ty, values) =>
       map (fun value =>
              {| ioc_type := ty; ioc_value := value;
                 severity := _determine_severity ty value |})
           values)
    extracted_iocs.

End IOCExtractor.

(* ===================================================================== *)
(** ** Python numbers and [sorted] *)
(* ===================================================================== *)


(** Values stored in a feature dictionary. *)
Inductive pyval : Type :=
| VBool (b : bool)
| VInt (n : Z)
| VFloat (q : Q).

(** [float(v)] *)
Definition to_float (v : pyval) : Q :=
  match v with
  | VBool b => if b then 1 else 0
  | VInt n => inject_Z n
  | VFloat q => q
  end.

(** [a / b] on integers: raises [ZeroDivisionError] when [b] is zero. *)
Definition py_truediv (a b : Z) : result Q :=
  if (b =? 0)%Z then Raise ZeroDivisionError
  else Ok (inject_Z a / inject_Z b)%Q.

Definition sumZ (l : list Z) : Z := fold_right Z.add 0%Z l.

(** [np.mean(l)].  On an empty list numpy has no number to return (it
    answers nan with a RuntimeWarning); the model counts that as a failure. *)
Definition np_mean (l : list Z) : result Q :=
  match l with
  | [] => Raise (LibraryError "mean of empty slice")
  | _ => Ok (inject_Z (sumZ l) / inject_Z (Z.of_nat (List.length l)))%Q
  end.

(** [max(l)]: raises [ValueError] on an empty list. *)
Definition py_max (l : list Z) : result Z :=
  match l with
  | [] => Raise (ValueError "max() arg is an empty sequence")
  | x :: rest => Ok (fold_left Z.max rest x)
  end.

(** [sorted] on strings: code-point order, by merge sort. *)
Module StringOrder <: Orders.TotalLeBool.
Definition t := string.
Definition leb := String.leb.
Definition leb_total := String.leb_total.
End StringOrder.

Module StringSort := Mergesort.Sort StringOrder.

Definition sorted (l : list string) : list string := StringSort.sort l.

(* ===================================================================== *)
(** ** ml/feature_extraction.py *)
(* ===================================================================== *)

Module FeatureExtractor.

Definition features : Type := list (string * pyval).

Definition urgency_words : list string :=
  ["urgent"; "immediately"; "action required"; "verify"; "suspend";
   "limited time"; "act now"; "confirm"; "expires"; "update"; "warning"].

Definition suspicious_keywords : list string :=
  ["password"; "credit card"; "social security"; "bank account";
   "verify account"; "click here"; "winner"; "prize"; "lottery";
   "inheritance"; "transfer"; "refund"; "tax"; "suspended"].

Definition suspicious_tlds : list string :=
  [".tk"; ".ml"; ".ga"; ".cf"; ".gq"; ".xyz"; ".top"; ".work";
   ".click"; ".link"; ".download"; ".stream"].

Definition shorteners : list string :=
  ["bit.ly"; "tinyurl"; "goo.gl"; "t.co"; "ow.ly"].

Definition truthy {A : Type} (l : list A) : bool :=
  match l with
  | [] => false
  | _ => true
  end.

(** [extract_text_features] *)
Definition extract_text_features (text : string) : result features :=
  let words := PyStr.split text in
  avg_word_length ←
    (if truthy words
     then VFloat <$> np_mean (map PyStr.len words)
     else Ok (VInt 0));
  uppercase_ratio ←
    (if (PyStr.len text >? 0)%Z
     then VFloat <$> py_truediv (PyStr.count_chars PyStr.is_upper text)
                                (PyStr.len text)
     else Ok (VInt 0));
  Ok [("length", VInt (PyStr.len text));
      ("num_words", VInt (Z.of_nat (List.length words)));
      ("num_sentences",
         VInt (PyStr.count text "." + PyStr.count text "!"
               + PyStr.count text "?")%Z);
      ("avg_word_length", avg_word_length);
      ("num_exclamation", VInt (PyStr.count text "!"));
      ("num_question", VInt (PyStr.count text "?"));
      ("num_uppercase", VInt (PyStr.count_chars PyStr.is_upper text));
      ("uppercase_ratio", uppercase_ratio)].

(** [\d{1,3}\.\d{1,3}\.\d{1,3}\.\d{1,3}] *)
Definition ip_literal_pattern : Re.regex :=
  let d13 := Re.between 1 3 IOCExtractor.digit in
  Re.seq [d13; Re.chr "."; d13; Re.chr "."; d13; Re.chr "."; d13].

(** [any(d in url.lower() for url in urls for d in needles)] *)
Definition any_url_contains (needles urls : list string) : bool :=
  existsb (fun url => PyStr.any_in needles (PyStr.lower url)) urls.

(** [extract_url_features] *)
Definition extract_url_features (text : string) : result features :=
  let urls := Re.findall true IOCExtractor.url_pattern text in
  avg_url_length ←
    (if truthy urls then VFloat <$> np_mean (map PyStr.len urls)
     else Ok (VInt 0));
  max_url_length ←
    (if truthy urls then VInt <$> py_max (map PyStr.len urls)
     else Ok (VInt 0));
  Ok [("num_links", VInt (Z.of_nat (List.length urls)));
      ("has_shortened_url",
         VBool (if truthy urls then any_url_contains shorteners urls
                else false));
      ("has_suspicious_tld",
         VBool (if truthy urls then any_url_contains suspicious_tlds urls
                else false));
      ("has_ip_address",
         VBool (if truthy urls
                then existsb (Re.search false ip_literal_pattern) urls
                else false));
      ("num_at_symbols", VInt (sumZ (map (fun url => PyStr.count url "@") urls)));
      ("avg_url_length", avg_url_length);
      ("max_url_length", max_url_length)].

(** [extract_email_features] *)
Definition extract_email_features (e : email_data) : result features :=
  let sender := default "" (sender e) in
  let subject := default "" (subject e) in
  let body := default "" (body e) in
  Ok [("subject_length", VInt (PyStr.len subject));
      ("body_length", VInt (PyStr.len body));
      ("sender_has_numbers",
         VBool (Re.search false IOCExtractor.digit sender));
      ("num_recipients",
         VInt (Z.of_nat (List.length (default [] (recipients e)))));
      ("has_attachments",
         VBool (Z.of_nat (List.length (default [] (attachments e))) >? 0)%Z);
      ("num_attachments",
         VInt (Z.of_nat (List.length (default [] (attachments e)))))].

(** [extract_keyword_features] *)
Definition extract_keyword_features (text : string) : result features :=
  let text_lower := PyStr.lower text in
  Ok [("num_urgency_words",
         VInt (sumZ (map (PyStr.count text_lower) urgency_words)));
      ("has_urgency_words", VBool (PyStr.any_in urgency_words text_lower));
      ("num_suspicious_keywords",
         VInt (sumZ (map (PyStr.count text_lower) suspicious_keywords)));
      ("has_suspicious_keywords",
         VBool (PyStr.any_in suspicious_keywords text_lower))].

(** [extract_ioc_features] *)
Definition extract_ioc_features (e : email_data) : result features :=
  let of_int (o : option Z) := VFloat (to_float (VInt (default 0%Z o))) in
  let of_bool (o : option bool) := VFloat (to_float (VBool (default false o))) in
  Ok [("ioc_total_count", of_int (ioc_count e));
      ("has_ipv4_ioc", of_bool (has_ipv4 e));
      ("has_url_ioc", of_bool (has_url e));
      ("has_email_ioc", of_bool (has_email e));
      ("has_hash_ioc", of_bool (has_hash e));
      ("ipv4_ioc_count", of_int (ipv4_count e));
      ("url_ioc_count", of_int (url_count e));
      ("email_ioc_count", of_int (email_count e));
      ("domain_ioc_count", of_int (domain_count e))].

(** [subject + ' ' + body] with the empty defaults. *)
Definition subject_and_body (e : email_data) : string :=
  default "" (subject e) +:+ " " +:+ default "" (body e).

(** [extract_all_features] *)
Definition extract_all_features (e : email_data) : result features :=
  let combined_text := subject_and_body e in
  text_features ← extract_text_features combined_text;
  url_features ← extract_url_features combined_text;
  email_features ← extract_email_features e;
  keyword_features ← extract_keyword_features combined_text;
  ioc_features ← extract_ioc_features e;
  Ok (fold_left PyDict.update
        [text_features; url_features; email_features; keyword_features;
         ioc_features] []).

(** [get_feature_names] *)
Definition get_feature_names (e : email_data) : result (list string) :=
  features ← extract_all_features e;
  Ok (sorted (PyDict.keys features)).

(** [get_feature_vector] *)
Definition get_feature_vector (e : email_data) : result (list Q) :=
  features ← extract_all_features e;
  let feature_names := sorted (PyDict.keys features) in
  mapM (fun name => to_float <$> PyDict.item features name) feature_names.

End FeatureExtractor.

(* ===================================================================== *)
(** ** The libraries behind the model, and the file system *)
(* ===================================================================== *)



(** scikit-learn, joblib and [strftime] are used through this interface;
    each call either returns or raises. *)
Class Library : Type := {
  vectorizer : Type;
  classifier : Type;
  (** [TfidfVectorizer(max_features=100, stop_words='english')], not yet fitted *)
  tfidf_new : vectorizer;
  (** [vectorizer.fit_transform(texts).toarray()]: the fitted vectorizer and
      the matrix *)
  tfidf_fit_transform : vectorizer → list string
                        → result (vectorizer * list (list Q));
  (** [vectorizer.transform(texts).toarray()] *)
  tfidf_transform : vectorizer → list string → result (list (list Q));
  (** [RandomForestClassifier(n_estimators=50, max_depth=10, random_state=42)],
      not yet fitted *)
  rf_new : classifier;
  (** [classifier.fit(X, y)]: the fitted classifier *)
  rf_fit : classifier → list (list Q) → list Z → result classifier;
  rf_predict : classifier → list (list Q) → result (list Z);
  rf_predict_proba : classifier → list (list Q) → result (list (list Q));
  (** [joblib.dump] / [joblib.load] of the dictionary
      [{'rf_model': .., 'tfidf_vectorizer': .., 'model_version': ..}] *)
  joblib_dump : option classifier → option vectorizer → string → list Byte.byte;
  joblib_load : list Byte.byte
                → result (option classifier * option vectorizer * option string);
  (** [datetime.strftime('%Y%m%d_%H%M%S')] *)
  strftime : Z → string
}.

(** [np.hstack([a, b])] on two matrices given by rows. *)
Fixpoint np_hstack (a b : list (list Q)) : result (list (list Q)) :=
  match a, b with
  | [], [] => Ok []
  | ra :: a', rb :: b' => rest ← np_hstack a' b'; Ok ((ra ++ rb)%list :: rest)
  | _, _ => Raise (ValueError "all the input array dimensions must match")
  end.

(** [l[i]] *)
Definition py_index {A : Type} (l : list A) (i : nat) : result A :=
  match nth_error l i with
  | Some x => Ok x
  | None => Raise IndexError
  end.

(* ===================================================================== *)
(** ** ml/phishing_ml_model.py *)
(* ===================================================================== *)

Module SimplePhishingML.
Section WithLibrary.
Context `{Library}.

(** The attributes of a [SimplePhishingML] object the code below uses. *)
Record model : Type := {
  rf_model : option classifier;
  tfidf_vectorizer : option vectorizer;
  model_version : string
}.


(** [[features[key] for key in sorted(features.keys())]], as floats. *)
Definition ordered_values (features : FeatureExtractor.features)
  : result (list Q) :=
  mapM (fun key => to_float <$> PyDict.item features key)
       (sorted (PyDict.keys features)).

(** The loop of [train_on_custom_data] collecting texts and vectors. *)
Fixpoint collect (emails_data : list email_data)
  : result (list string * list (list Q)) :=
  match emails_data with
  | [] => Ok ([], [])
  | e :: rest =>
      let text :=
        match full_text e with
        | Some (String c s) => String c s
        | _ => FeatureExtractor.subject_and_body e
        end in
      features ← FeatureExtractor.extract_all_features e;
      feature_vector ← ordered_values features;
      '(texts, feature_vectors) ← collect rest;
      Ok (text :: texts, feature_vector :: feature_vectors)
  end.

(** [train_on_custom_data].  The object is updated as training goes, so
    the function returns the object it leaves behind together with its
    outcome. *)
Definition train_on_custom_data (self : model)
    (emails_data : list email_data) (labels : list Z)
  : model * result bool :=
  if negb (List.length emails_data =? List.length labels)%nat then
    (self, Raise (ValueError "Number of emails and labels must match"))
  else if (List.length emails_data <? 4)%nat then
    (self, Raise (ValueError "Need at least 4 emails for training"))
  else
    let phishing_count := sumZ labels in
    let legitimate_count := (Z.of_nat (List.length labels) - phishing_count)%Z in
    if ((phishing_count <? 2) || (legitimate_count <? 2))%Z then
      (self, Raise (ValueError "Need at least 2 examples of each class"))
    else
      match collect emails_data with
      | Raise e => (self, Raise e)
      | Ok (texts, feature_vectors) =>
          let self1 := {| rf_model := rf_model self;
                          tfidf_vectorizer := Some tfidf_new;
                          model_version := model_version self |} in
          match tfidf_fit_transform tfidf_new texts with
          | Raise e => (self1, Raise e)
          | Ok (vec, X_tfidf) =>
              let self2 := {| rf_model := rf_model self;
                              tfidf_vectorizer := Some vec;
                              model_version := model_version self |} in
              match np_hstack X_tfidf feature_vectors with
              | Raise e => (self2, Raise e)
              | Ok X_combined =>
                  let self3 := {| rf_model := Some rf_new;
                                  tfidf_vectorizer := Some vec;
                                  model_version := model_version self |} in
                  match rf_fit rf_new X_combined labels with
                  | Raise e => (self3, Raise e)
                  | Ok clf =>
                      let self4 := {| rf_model := Some clf;
                                      tfidf_vectorizer := Some vec;
                                      model_version := model_version self |} in
                      match rf_predict clf X_combined with
                      | Raise e => (self4, Raise e)
                      | Ok train_predictions => (self4, Ok true)
                      end
                  end
              end
          end
      end.

(** [predict] *)
Definition predict (self : model) (e : email_data) : result (Z * list Q) :=
  match rf_model self, tfidf_vectorizer self with
  | Some clf, Some vec =>
      let text := FeatureExtractor.subject_and_body e in
      X_tfidf ← tfidf_transform vec [text];
      features ← FeatureExtractor.extract_all_features e;
      feature_vector ← ordered_values features;
      X_combined ← np_hstack X_tfidf [feature_vector];
      predictions ← rf_predict clf X_combined;
      prediction ← py_index predictions 0;
      all_probabilities ← rf_predict_proba clf X_combined;
      probabilities ← py_index all_probabilities 0;
      Ok (prediction, probabilities)
  | _, _ =>
      Raise (ValueError "Model not trained. Call train_on_test_emails() first.")
  end.



End WithLibrary.
End SimplePhishingML.

(* ===================================================================== *)
(** ** database/models.py: the stored rows *)
(* ===================================================================== *)

Module Db.
(** A row of [emails]; nullable columns are options. *)
Record Email : Type := {
  id : Z;
  upload_date : option Z;
  is_phishing : option bool;
  sender : option string;
  subject : option string;
  body : option string
}.

(** A row of [iocs]. *)
Record IOC : Type := {
  email_id : option Z;
  ioc_type : string;
  ioc_value : string;
  severity : string
}.

Record database : Type := {
  emails : list Email;
  iocs : list IOC
}.

End Db.

(* ===================================================================== *)
(** ** backend/app.py *)
(* ===================================================================== *)

Module App.

(** The word lists are local to each function in the source; the rule
    score and the confidence score use different keyword lists. *)
Definition urgency_words : list string :=
  ["urgent"; "immediately"; "action required"; "verify"; "suspend";
   "limited time"; "act now"; "expires"; "warning"].

Definition suspicious_tlds : list string :=
  [".tk"; ".ml"; ".ga"; ".cf"; ".gq"; ".xyz"; ".top"; ".click"].

(** [subject + ' ' + body], both lower-cased. *)
Definition combined_text (e : email_data) : string :=
  PyStr.lower (default "" (subject e)) +:+ " "
    +:+ PyStr.lower (default "" (body e)).

Module Rule.
Definition suspicious_keywords : list string :=
  ["password"; "credit card"; "social security"; "bank account";
   "verify account"; "click here"; "winner"; "prize"; "lottery";
   "inheritance"; "suspended"; "confirm"].

Definition urgency_count (e : email_data) : Z :=
  PyStr.hits urgency_words (combined_text e).

Definition urgency_points (e : email_data) : Z :=
  if (urgency_count e >=? 3)%Z then 30
  else if (urgency_count e >=? 1)%Z then 15 else 0.

Definition suspicious_count (e : email_data) : Z :=
  PyStr.hits suspicious_keywords (combined_text e).

Definition keyword_points (e : email_data) : Z :=
  if (suspicious_count e >=? 3)%Z then 25
  else if (suspicious_count e >=? 1)%Z then 10 else 0.

Definition sender_points (e : email_data) : Z :=
  if PyStr.any_in suspicious_tlds (PyStr.lower (default "" (sender e)))
  then 35 else 0.

(** One round of the loop over [iocs]. *)
Definition ioc_step (ioc_score : Z) (ioc : indicator) : Z :=
  let s1 := if existsb (String.eqb (ioc_type ioc)) ["md5"; "sha1"; "sha256"]
            then (ioc_score + 10)%Z else ioc_score in
  if String.eqb (severity ioc) "high" then (s1 + 15)%Z
  else if String.eqb (severity ioc) "medium" then (s1 + 8)%Z
  else s1.

Definition ioc_score (iocs : list indicator) : Z := fold_left ioc_step iocs 0%Z.

Definition ioc_points (iocs : list indicator) : Z := Z.min (ioc_score iocs) 40.

Definition link_count (e : email_data) : Z :=
  let body := PyStr.lower (default "" (body e)) in
  (PyStr.count body "http://" + PyStr.count body "https://")%Z.

Definition link_points (e : email_data) : Z :=
  if (link_count e >? 5)%Z then 15
  else if (link_count e >? 2)%Z then 5 else 0.

Definition ip_in_urls (e : email_data) (iocs : list indicator) : bool :=
  existsb (fun ioc => String.eqb (ioc_type ioc) "ipv4"
                      && PyStr.contains "http" (combined_text e)) iocs.

Definition ip_points (e : email_data) (iocs : list indicator) : Z :=
  if ip_in_urls e iocs then 20 else 0.

(** The final value of [phishing_score]. *)
Definition phishing_score (e : email_data) (iocs : list indicator) : Z :=
  (urgency_points e + keyword_points e + sender_points e + ioc_points iocs
   + link_points e + ip_points e iocs)%Z.
End Rule.

(** [detect_phishing_simple] *)
Definition detect_phishing_simple (e : email_data) (iocs : list indicator) : bool :=
  (Rule.phishing_score e iocs >=? 50)%Z.

Module Confidence.
Definition suspicious_keywords : list string :=
  ["password"; "credit card"; "social security"; "bank account";
   "verify account"; "click here"; "winner"; "prize"; "lottery"].

Definition urgency_count (e : email_data) : Z :=
  PyStr.hits urgency_words (combined_text e).

Definition urgency_points (e : email_data) : Z :=
  Z.min (urgency_count e * 8) 25.

Definition suspicious_count (e : email_data) : Z :=
  PyStr.hits suspicious_keywords (combined_text e).

Definition keyword_points (e : email_data) : Z :=
  Z.min (suspicious_count e * 7) 20.

Definition sender_points (e : email_data) : Z :=
  if PyStr.any_in suspicious_tlds (PyStr.lower (default "" (sender e)))
  then 20 else 0.

Definition severity_count (level : string) (iocs : list indicator) : Z :=
  Z.of_nat (List.length
              (List.filter (fun ioc => String.eqb (severity ioc) level) iocs)).

Definition high_points (iocs : list indicator) : Z :=
  Z.min (severity_count "high" iocs * 10) 20.

Definition medium_points (iocs : list indicator) : Z :=
  Z.min (severity_count "medium" iocs * 5) 15.

(** The value of [score] before the final clamp. *)
Definition score (e : email_data) (iocs : list indicator) : Z :=
  (urgency_points e + keyword_points e + sender_points e
   + high_points iocs + medium_points iocs)%Z.
End Confidence.

(** [calculate_confidence_score] *)
Definition calculate_confidence_score (e : email_data) (iocs : list indicator) : Z :=
  Z.min (Confidence.score e iocs) 100.

(** [get_risk_level] *)
Definition get_risk_level (is_phishing : bool) (confidence_score : Q) : string :=
  if is_phishing then
    if Qle_bool 80 confidence_score then "Critical"
    else if Qle_bool 60 confidence_score then "High"
    else "Medium"
  else
    if Qle_bool 40 confidence_score then "Low"
    else "Safe".

(** The [IOC] row [upload_email] stores for an extracted indicator. *)
Definition ioc_record (email_id : Z) (ioc : indicator) : Db.IOC :=
  {| Db.email_id := Some email_id;
     Db.ioc_type := ioc_type ioc;
     Db.ioc_value := ioc_value ioc;
     Db.severity := severity ioc |}.

(** The [MLPrediction] row saved with the verdict. *)
Record MLPrediction : Type := {
  predicted_class : string;
  probability : Q;
  model_version : string
}.

(** What the detection step of [upload_email] leaves in
    [is_phishing], [confidence_score] and [ml_prediction]. *)
Record verdict : Type := {
  is_phishing : bool;
  confidence_score : Q;
  ml_prediction : MLPrediction
}.

Definition class_name (is_phishing : bool) : string :=
  if is_phishing then "phishing" else "legitimate".

(** The rule-based verdict, as both the [except] branch and the
    no-model branch build it. *)
Definition rule_based (e : email_data) (extracted_iocs : list indicator) : verdict :=
  let is_phishing := detect_phishing_simple e extracted_iocs in
  let confidence_score := inject_Z (calculate_confidence_score e extracted_iocs) in
  {| is_phishing := is_phishing;
     confidence_score := confidence_score;
     ml_prediction :=
       {| predicted_class := class_name is_phishing;
          probability := (confidence_score / 100)%Q;
          model_version := "rule-based-v1.0" |} |}.

Section WithLibrary.
Context `{Library}.

(** The body of the [try] block of the detection step. *)
Definition model_path_body (ml_model : SimplePhishingML.model)
    (e : email_data) (extracted_iocs : list indicator) : result verdict :=
  '(ml_prediction_result, ml_probabilities) ← SimplePhishingML.predict ml_model e;
  let is_phishing_ml := (ml_prediction_result =? 1)%Z in
  p1 ← py_index ml_probabilities 1;
  let confidence_ml := (p1 * 100)%Q in
  let is_phishing_rule := detect_phishing_simple e extracted_iocs in
  let confidence_rule := calculate_confidence_score e extracted_iocs in
  Ok {| is_phishing := is_phishing_ml;
        confidence_score := confidence_ml;
        ml_prediction :=
          {| predicted_class := class_name is_phishing_ml;
             probability := p1;
             model_version := SimplePhishingML.model_version ml_model |} |}.

(** The detection step of [upload_email]: the model first when one is
    loaded, the rules when it is not or when the model path raises. *)
Definition detection_step (ml_model_available : bool)
    (ml_model : SimplePhishingML.model)
    (e : email_data) (extracted_iocs : list indicator) : result verdict :=
  if ml_model_available then
    try_except (model_path_body ml_model e extracted_iocs)
               (fun _ => Ok (rule_based e extracted_iocs))
  else Ok (rule_based e extracted_iocs).

(** The [analysis] part of the response: verdict and risk level. *)
Definition analysis (ml_model_available : bool)
    (ml_model : SimplePhishingML.model) (e : email_data)
  : result (verdict * string) :=
  let extracted_iocs := IOCExtractor.extract_from_email e in
  v ← detection_step ml_model_available ml_model e extracted_iocs;
  Ok (v, get_risk_level (is_phishing v) (confidence_score v)).
End WithLibrary.

End App.

(* ===================================================================== *)
(** ** extras/auto_retrain/auto_retrain.py *)
(* ===================================================================== *)

Module AutoRetrainer.






(** One step of the loop building [ioc_counts]. *)
Definition count_ioc (ioc_counts : gmap string Z) (ioc : Db.IOC) : gmap string Z :=
  let ioc_type := Db.ioc_type ioc in
  let ioc_counts := match ioc_counts !! ioc_type with
                    | None => <[ioc_type := 0%Z]> ioc_counts
                    | Some _ => ioc_counts
                    end in
  <[ioc_type := (default 0%Z (ioc_counts !! ioc_type) + 1)%Z]> ioc_counts.

Definition ioc_counts_of (iocs : list Db.IOC) : gmap string Z :=
  fold_left count_ioc iocs ∅.

(** [ioc_counts.get(k, 0)] *)
Definition get0 (ioc_counts : gmap string Z) (k : string) : Z :=
  default 0%Z (ioc_counts !! k).

(** The [email_data] dictionary [prepare_training_data] builds for a row. *)
Definition training_record (email : Db.Email) (iocs : list Db.IOC) : email_data :=
  let ioc_counts := ioc_counts_of iocs in
  let subject := default "" (Db.subject email) in
  let body := default "" (Db.body email) in
  {| subject := Some subject;
     sender := Some (default "" (Db.sender email));
     body := Some body;
     full_text := Some (subject +:+ " " +:+ body);
     ioc_count := Some (Z.of_nat (List.length iocs));
     has_ipv4 := Some (get0 ioc_counts "ipv4" >? 0)%Z;
     has_url := Some (get0 ioc_counts "url" >? 0)%Z;
     has_email := Some (get0 ioc_counts "email" >? 0)%Z;
     has_hash := Some (get0 ioc_counts "md5" + get0 ioc_counts "sha256" >? 0)%Z;
     ipv4_count := Some (get0 ioc_counts "ipv4");
     url_count := Some (get0 ioc_counts "url");
     email_count := Some (get0 ioc_counts "email");
     domain_count := Some (get0 ioc_counts "domain");
     headers := None; recipients := None; attachments := None |}.


Section WithLibrary.
Context `{Library}.









End WithLibrary.
End AutoRetrainer.

(* ===================================================================== *)
(** ** Sample data and stand-ins for the libraries, used by the examples *)
(* ===================================================================== *)

Module Samples.

(** The e-mail of the specification's end-to-end example. *)
Definition bank_email : email_data :=
  {| sender := Some "security@secure-bank.tk";
     subject := Some "URGENT: Action Required - Verify Your Account Immediately";
     body := Some "Please verify your account immediately or it will be suspended. Click here to confirm: http://secure-bank.tk/login";
     headers := None; recipients := None; attachments := None;
     full_text := None; ioc_count := None; has_ipv4 := None; has_url := None;
     has_email := None; has_hash := None; ipv4_count := None;
     url_count := None; email_count := None; domain_count := None |}.

Definition bank_iocs : list indicator := IOCExtractor.extract_from_email bank_email.


(** A library whose classifier fails to fit and rejects the vectors it is
    asked to classify. *)
Definition refusing_library : Library :=
  {| vectorizer := unit;
     classifier := unit;
     tfidf_new := tt;
     tfidf_fit_transform := fun _ texts => Ok (tt, map (fun _ => []) texts);
     tfidf_transform := fun _ texts => Ok (map (fun _ => []) texts);
     rf_new := tt;
     rf_fit := fun _ _ _ => Raise (LibraryError "fit failed");
     rf_predict := fun _ X => Raise (LibraryError "feature count mismatch");
     rf_predict_proba := fun _ X => Ok (map (fun _ => [1%Q; 0%Q]) X);
     joblib_dump := fun _ _ _ => [Byte.x01];
     joblib_load := fun _ => Ok (Some tt, Some tt, Some "simple-rf-v1.0");
     strftime := fun _ => "20240101_020000" |}.

(** A stored e-mail with a label and no text. *)
Definition row (i : Z) (label : bool) : Db.Email :=
  {| Db.id := i; Db.upload_date := Some 0%Z; Db.is_phishing := Some label;
     Db.sender := None; Db.subject := None; Db.body := None |}.



(** An e-mail that quotes a SHA-1 digest, and a balanced history whose
    first e-mail is stored with the indicators extracted from it. *)
Definition digest_email : email_data :=
  {| sender := None; subject := None;
     body := Some "digest da39a3ee5e6b4b0d3255bfef95601890afd80709";
     headers := None; recipients := None; attachments := None;
     full_text := None; ioc_count := None; has_ipv4 := None; has_url := None;
     has_email := None; has_hash := None; ipv4_count := None;
     url_count := None; email_count := None; domain_count := None |}.

Definition history_sha1 : Db.database :=
  {| Db.emails := [row 1 true; row 2 true; row 3 false; row 4 false];
     Db.iocs := map (App.ioc_record 1)
                    (IOCExtractor.extract_from_email digest_email) |}.


(** A model object with a classifier and a vocabulary loaded. *)
Definition loaded_model `{Library} (clf : classifier) (vec : vectorizer)
  : SimplePhishingML.model :=
  {| SimplePhishingML.rf_model := Some clf;
     SimplePhishingML.tfidf_vectorizer := Some vec;
     SimplePhishingML.model_version := "simple-rf-v1.0" |}.





End Samples.

(* ===================================================================== *)
(** ** Vocabulary of the specification *)
(* ===================================================================== *)

Local Open Scope list_scope.

(** [sub] occurs somewhere inside [s]. *)
Definition is_substring (sub s : string) : Prop :=
  ∃ pre post, s = pre +:+ sub +:+ post.

(** The lower-cased value contains one of the extractor's suspicious
    top-level domains. *)
Definition has_suspicious_tld (value : string) : Prop :=
  ∃ tld, In tld IOCExtractor.suspicious_tlds ∧ is_substring tld (PyStr.lower value).



(** The feature names, in the order [extract_all_features] inserts them. *)
Definition feature_schema : list string :=
  ["length"; "num_words"; "num_sentences"; "avg_word_length";
   "num_exclamation"; "num_question"; "num_uppercase"; "uppercase_ratio";
   "num_links"; "has_shortened_url"; "has_suspicious_tld"; "has_ip_address";
   "num_at_symbols"; "avg_url_length"; "max_url_length";
   "subject_length"; "body_length"; "sender_has_numbers"; "num_recipients";
   "has_attachments"; "num_attachments";
   "num_urgency_words"; "has_urgency_words"; "num_suspicious_keywords";
   "has_suspicious_keywords";
   "ioc_total_count"; "has_ipv4_ioc"; "has_url_ioc"; "has_email_ioc";
   "has_hash_ioc"; "ipv4_ioc_count"; "url_ioc_count"; "email_ioc_count";
   "domain_ioc_count"].

(** The same names in lexicographic order. *)
Definition canonical_names : list string :=
  ["avg_url_length"; "avg_word_length"; "body_length"; "domain_ioc_count";
   "email_ioc_count"; "has_attachments"; "has_email_ioc"; "has_hash_ioc";
   "has_ip_address"; "has_ipv4_ioc"; "has_shortened_url";
   "has_suspicious_keywords"; "has_suspicious_tld"; "has_urgency_words";
   "has_url_ioc"; "ioc_total_count"; "ipv4_ioc_count"; "length";
   "max_url_length"; "num_at_symbols"; "num_attachments"; "num_exclamation";
   "num_links"; "num_question"; "num_recipients"; "num_sentences";
   "num_suspicious_keywords"; "num_uppercase"; "num_urgency_words";
   "num_words"; "sender_has_numbers"; "subject_length"; "uppercase_ratio";
   "url_ioc_count"].

(** Strict lexicographic order on names. *)
Definition name_lt (a b : string) : Prop := String.ltb a b = true.







(** The indicators listed for a dictionary of matches. *)
Definition listed (d : list (string * list string)) : list indicator :=
  flat_map
    (fun '(ty, values) =>
       map (fun value =>
              {| ioc_type := ty; ioc_value := value;
                 severity := IOCExtractor._determine_severity ty value |})
           values) d.

(** The number of stored indicators of a type. *)
Definition count_type (ty : string) (iocs : list Db.IOC) : Z :=
  Z.of_nat (length (List.filter (fun r => String.eqb (Db.ioc_type r) ty) iocs)).


(** *** Runs of the retrainer *)

Section RunVocabulary.
Context `{Library}.









End RunVocabulary.

(** *** Dotted quads *)







(* ===================================================================== *)
(** ** Further string methods *)
(* ===================================================================== *)

Module PyText.

(** [s.replace(old, new)] for a non-empty [old]: occurrences are replaced
    left to right without overlap.  [skip] is the number of characters
    still covered by the occurrence just replaced. *)
Fixpoint replace_from (old new : string) (skip : nat) (s : string) : string :=
  match s with
  | EmptyString => EmptyString
  | String c rest =>
      match skip with
      | S n => replace_from old new n rest
      | O => if String.prefix old s
             then new +:+ replace_from old new (String.length old - 1) rest
             else String c (replace_from old new 0 rest)
      end
  end.

(** An empty [old] matches before every character and at the end. *)
Fixpoint interleave (new s : string) : string :=
  match s with
  | EmptyString => new
  | String c rest => new +:+ String c (interleave new rest)
  end.

Definition replace (s old new : string) : string :=
  match old with
  | EmptyString => interleave new s
  | _ => replace_from old new 0 s
  end.

(** The text before and after the last [sep]. *)
Fixpoint split_last (sep : ascii) (s : string) : option (string * string) :=
  match s with
  | EmptyString => None
  | String c rest =>
      match split_last sep rest with
      | Some (before, after) => Some (String c before, after)
      | None => if Ascii.eqb c sep then Some (EmptyString, rest) else None
      end
  end.

(** [s.rsplit(sep, 1)] for a separator of one character. *)
Definition rsplit1 (sep : ascii) (s : string) : list string :=
  match split_last sep s with
  | Some (before, after) => [before; after]
  | None => [s]
  end.

(** [s.split(sep)] for a separator of one character. *)
Fixpoint split_on (sep : ascii) (s : string) : list string :=
  match s with
  | EmptyString => [EmptyString]
  | String c rest =>
      if Ascii.eqb c sep then EmptyString :: split_on sep rest
      else match split_on sep rest with
           | w :: ws => String c w :: ws
           | [] => [String c EmptyString]
           end
  end.

(** [s.find(sub)], counted from [i]. *)
Fixpoint find_from (sub s : string) (i : Z) : Z :=
  if String.prefix sub s then i
  else match s with
       | EmptyString => (-1)%Z
       | String _ rest => find_from sub rest (i + 1)%Z
       end.

Definition find (s sub : string) : Z := find_from sub s 0%Z.

(** A slice bound as Python clamps it. *)
Definition bound (n i : Z) : Z :=
  if (i <? 0)%Z then Z.max 0 (n + i) else Z.min i n.

(** [s[start:stop]] *)
Definition slice (s : string) (start stop : Z) : string :=
  let a := bound (PyStr.len s) start in
  let b := bound (PyStr.len s) stop in
  if (b <=? a)%Z then EmptyString
  else String.substring (Z.to_nat a) (Z.to_nat (b - a)) s.

Fixpoint lstrip (s : string) : string :=
  match s with
  | EmptyString => EmptyString
  | String c rest => if PyStr.is_space c then lstrip rest else s
  end.

Fixpoint rstrip (s : string) : string :=
  match s with
  | EmptyString => EmptyString
  | String c rest =>
      match rstrip rest with
      | EmptyString => if PyStr.is_space c then EmptyString
                       else String c EmptyString
      | kept => String c kept
      end
  end.

(** [s.strip()] *)
Definition strip (s : string) : string := rstrip (lstrip s).

End PyText.

(* ===================================================================== *)
(** ** backend/utils/ioc_extractor.py: [defang_url] *)
(* ===================================================================== *)

Module Defang.

Definition defang_url (url : string) : string :=
  let defanged := PyText.replace url "http://" "hxxp://" in
  let defanged := PyText.replace defanged "https://" "hxxps://" in
  let defanged := PyText.replace defanged "." "[.]" in
  defanged.

End Defang.

(* ===================================================================== *)
(** ** backend/utils/email_parser.py *)
(* ===================================================================== *)

Module EmailParser.

(** [msg.get(name, '')]: [msg] is the header lookup of the message. *)
Definition header (msg : string → option string) (name : string) : string :=
  default "" (msg name).

(** [_extract_sender] *)
Definition _extract_sender (msg : string → option string) : string :=
  let from_header := header msg "from" in
  if PyStr.contains "<" from_header && PyStr.contains ">" from_header then
    let start := (PyText.find from_header "<" + 1)%Z in
    let end_ := PyText.find from_header ">" in
    PyText.slice from_header start end_
  else from_header.

(** [_extract_recipients] *)
Definition _extract_recipients (msg : string → option string) : list string :=
  fold_left
    (fun recipients name =>
       let value := header msg name in
       if String.eqb value "" then recipients
       else recipients ++ map PyText.strip (PyText.split_on "," value))
    ["to"; "cc"; "bcc"] [].

Definition urgency_words : list string :=
  ["urgent"; "immediately"; "action required"; "verify"; "suspend";
   "limited time"; "act now"; "confirm"; "expires"; "update"].

Definition suspicious_keywords : list string :=
  ["password"; "credit card"; "social security"; "bank account";
   "verify account"; "click here"; "winner"; "prize"; "lottery"].

Definition _has_urgency_words (text : string) : bool :=
  PyStr.any_in urgency_words (PyStr.lower text).

Definition _has_external_links (text : string) : bool :=
  PyStr.contains "http://" text || PyStr.contains "https://" text.

Definition _has_suspicious_keywords (text : string) : bool :=
  PyStr.any_in suspicious_keywords (PyStr.lower text).

(** The dictionary [extract_features] returns. *)
Record parsed_features : Type := {
  email_length : Z;
  num_links : Z;
  num_attachments : Z;
  has_urgency_words : bool;
  subject_length : Z;
  sender_domain : string;
  num_recipients : Z;
  has_external_links : bool;
  has_suspicious_keywords : bool
}.

(** [extract_features] *)
Definition extract_features (e : email_data) : parsed_features :=
  let body := default "" (body e) in
  let subject := default "" (subject e) in
  let sender := default "" (sender e) in
  {| email_length := PyStr.len body;
     num_links := (PyStr.count body "http://" + PyStr.count body "https://")%Z;
     num_attachments := Z.of_nat (length (default [] (attachments e)));
     has_urgency_words := _has_urgency_words (body +:+ " " +:+ subject);
     subject_length := PyStr.len subject;
     sender_domain := if PyStr.contains "@" sender
                      then List.last (PyText.split_on "@" sender) ""
                      else "";
     num_recipients := Z.of_nat (length (default [] (recipients e)));
     has_external_links := _has_external_links body;
     has_suspicious_keywords :=
       _has_suspicious_keywords (body +:+ " " +:+ subject) |}.

End EmailParser.

(* ===================================================================== *)
(** ** backend/app.py: upload check and read-only endpoints *)
(* ===================================================================== *)

Module Views.

Definition ALLOWED_EXTENSIONS : list string := ["eml"; "txt"].

(** [allowed_file] *)
Definition allowed_file (filename : string) : result bool :=
  if PyStr.contains "." filename then
    ext ← py_index (PyText.rsplit1 "." filename) 1;
    Ok (bool_decide (PyStr.lower ext ∈ ALLOWED_EXTENSIONS))
  else Ok false.

(** One entry of [ioc_breakdown]: the value and its severity. *)
Definition breakdown : Type :=
  (list (string * list (string * string)) * list (string * Z))%type.

(** One round of the loop of [upload_email] that groups the indicators for
    the response; [severity_breakdown[severity] += 1] needs the key. *)
Definition breakdown_step (acc : breakdown) (ioc : indicator) : result breakdown :=
  let '(ioc_breakdown, severity_breakdown) := acc in
  let ioc_breakdown :=
    match PyDict.get ioc_breakdown (ioc_type ioc) with
    | None => PyDict.set ioc_breakdown (ioc_type ioc) []
    | Some _ => ioc_breakdown
    end in
  entries ← PyDict.item ioc_breakdown (ioc_type ioc);
  let ioc_breakdown :=
    PyDict.set ioc_breakdown (ioc_type ioc)
      (entries ++ [(ioc_value ioc, severity ioc)]) in
  n ← PyDict.item severity_breakdown (severity ioc);
  Ok (ioc_breakdown, PyDict.set severity_breakdown (severity ioc) (n + 1)%Z).

Fixpoint breakdown_loop (acc : breakdown) (iocs : list indicator) : result breakdown :=
  match iocs with
  | [] => Ok acc
  | ioc :: rest => acc' ← breakdown_step acc ioc; breakdown_loop acc' rest
  end.

Definition breakdowns (extracted_iocs : list indicator) : result breakdown :=
  breakdown_loop ([], [("low", 0%Z); ("medium", 0%Z); ("high", 0%Z)])
    extracted_iocs.

(** One day of [get_timeline_metrics]. *)
Record day : Type := {
  date : string;
  total : Z;
  phishing : Z;
  legitimate : Z
}.

(** One round of the grouping loop; [date_key] is the day of the upload
    date as [strftime('%Y-%m-%d')] prints it. *)
Definition timeline_step (timeline : list (string * day)) (date_key : string)
    (is_phishing : option bool) : result (list (string * day)) :=
  let timeline :=
    match PyDict.get timeline date_key with
    | None => PyDict.set timeline date_key
                {| date := date_key; total := 0; phishing := 0; legitimate := 0 |}
    | Some _ => timeline
    end in
  d ← PyDict.item timeline date_key;
  let d := {| date := date d; total := total d + 1;
              phishing := phishing d; legitimate := legitimate d |} in
  let d := if default false is_phishing
           then {| date := date d; total := total d;
                   phishing := phishing d + 1; legitimate := legitimate d |}
           else {| date := date d; total := total d;
                   phishing := phishing d; legitimate := legitimate d + 1 |} in
  Ok (PyDict.set timeline date_key d).

Fixpoint timeline_loop (strftime_day : Z → string) (timeline : list (string * day))
    (emails : list Db.Email) : result (list (string * day)) :=
  match emails with
  | [] => Ok timeline
  | email :: rest =>
      match Db.upload_date email with
      | None => Raise (LibraryError "AttributeError")
      | Some upload_date =>
          timeline' ← timeline_step timeline (strftime_day upload_date)
                        (Db.is_phishing email);
          timeline_loop strftime_day timeline' rest
      end
  end.

(** The rows [get_timeline_metrics] reads: uploaded since [since]. *)
Definition uploaded_since (since : Z) (emails : list Db.Email) : list Db.Email :=
  List.filter (fun email => match Db.upload_date email with
                            | Some t => (since <=? t)%Z
                            | None => false
                            end) emails.

(** The body of [get_timeline_metrics] over the rows of the query, in
    the order the query returns them. *)
Definition timeline_of (strftime_day : Z → string) (emails : list Db.Email)
    : result (list day) :=
  timeline ← timeline_loop strftime_day [] emails;
  Ok (map snd timeline).

(** The page [get_iocs] returns. *)
Record page_of (A : Type) : Type := {
  page_total : Z;
  page_number : Z;
  page_size : Z;
  page_count : Z;
  page_items : list A
}.
Arguments page_total {A}.
Arguments page_number {A}.
Arguments page_size {A}.
Arguments page_count {A}.
Arguments page_items {A}.

(** [//] *)
Definition py_floordiv (a b : Z) : result Z :=
  if (b =? 0)%Z then Raise ZeroDivisionError else Ok (a / b)%Z.

(** The pagination of [get_iocs] over [rows], the filtered and ordered
    rows of the query: [offset] and [limit] cut the page out of them.
    What the database does with a negative offset or limit is not
    modelled; the properties below are stated from page 1 on. *)
Definition get_iocs_page {A : Type} (rows : list A) (page per_page : Z)
    : result (page_of A) :=
  let total := Z.of_nat (length rows) in
  let offset := ((page - 1) * per_page)%Z in
  let iocs := firstn (Z.to_nat per_page) (skipn (Z.to_nat offset) rows) in
  pages ← py_floordiv (total + per_page - 1) per_page;
  Ok {| page_total := total; page_number := page; page_size := per_page;
        page_count := pages; page_items := iocs |}.

End Views.

(* ===================================================================== *)
(** ** Vocabulary of the further properties *)
(* ===================================================================== *)

(** The parts of the rule score, in the order the code adds them. *)
Definition rule_parts (e : email_data) (iocs : list indicator) : list Z :=
  [App.Rule.urgency_points e; App.Rule.keyword_points e;
   App.Rule.sender_points e; App.Rule.ioc_points iocs;
   App.Rule.link_points e; App.Rule.ip_points e iocs].

(** The indicators of one severity, and the entries of one type. *)
Definition with_severity (level : string) (iocs : list indicator) : Z :=
  Z.of_nat (length (List.filter (fun i => String.eqb (severity i) level) iocs)).

Definition entries_of (ty : string) (iocs : list indicator)
  : list (string * string) :=
  map (fun i => (ioc_value i, severity i))
      (List.filter (fun i => String.eqb (ioc_type i) ty) iocs).

Definition severity_levels : list string := ["low"; "medium"; "high"].

(** What a day of the timeline must satisfy: it is filed under its own
    date, it is not empty, and its two counters add up to its total. *)
Definition day_consistent (d : Views.day) : Prop :=
  (0 < Views.total d)%Z
  ∧ (0 ≤ Views.phishing d)%Z ∧ (0 ≤ Views.legitimate d)%Z
  ∧ Views.total d = (Views.phishing d + Views.legitimate d)%Z.

(** The e-mails marked as phishing. *)
Definition marked_phishing (emails : list Db.Email) : Z :=
  Z.of_nat (length (List.filter (fun email => default false (Db.is_phishing email))
                      emails)).

(** The items of one page, nothing when the request fails. *)
Definition items_at {A : Type} (rows : list A) (per_page : Z) (page : nat) : list A :=
  match Views.get_iocs_page rows (Z.of_nat page) per_page with
  | Ok r => Views.page_items r
  | Raise _ => []
  end.

(** A day after one more e-mail is counted. *)
Definition counted (is_phishing : option bool) (d : Views.day) : Views.day :=
  {| Views.date := Views.date d;
     Views.total := Views.total d + 1;
     Views.phishing :=
       Views.phishing d + (if default false is_phishing then 1 else 0);
     Views.legitimate :=
       Views.legitimate d + (if default false is_phishing then 0 else 1) |}.

Definition empty_day (date_key : string) : Views.day :=
  {| Views.date := date_key; Views.total := 0;
     Views.phishing := 0; Views.legitimate := 0 |}.

Definition entry_consistent (kd : string * Views.day) : Prop :=
  Views.date (snd kd) = fst kd ∧ day_consistent (snd kd).

(** [s] without its first [n] characters. *)
Fixpoint drop_chars (n : nat) (s : string) : string :=
  match n, s with
  | S n', String _ rest => drop_chars n' rest
  | _, _ => s
  end.

(** Two strings agree when neither contradicts the other on the positions
    they share. *)
Fixpoint agree (p y : string) : bool :=
  match p, y with
  | String a p', String b y' => Ascii.eqb a b && agree p' y'
  | _, _ => true
  end.

(** No occurrence of [p] can begin inside a copy of [new] ... *)
Definition not_begun_in (p new : string) : bool :=
  forallb (fun i => negb (agree p (drop_chars i new))) (seq 0 (String.length new)).

(** ... and no copy of [new] can begin inside an occurrence of [p]. *)
Definition not_begun_by (p new : string) : bool :=
  forallb (fun j => negb (agree (drop_chars j p) new)) (seq 0 (String.length p)).

(** Every dot of [s] stands between brackets. *)
Definition dots_bracketed (s : string) : Prop :=
  ∀ pre post, s = pre +:+ "." +:+ post →
    (∃ pre', pre = pre' +:+ "[") ∧ (∃ post', post = "]" +:+ post').

(** Replacing the dot character by character. *)
Fixpoint bracket_dots (s : string) : string :=
  match s with
  | EmptyString => EmptyString
  | String c rest =>
      if Ascii.eqb c "." then String "[" (String "." (String "]" (bracket_dots rest)))
      else String c (bracket_dots rest)
  end.

(** The place of a key in a list of keys. *)
Fixpoint index_of (k : string) (keys : list string) : nat :=
  match keys with
  | [] => 0
  | x :: rest => if String.eqb x k then 0 else S (index_of k rest)
  end.

(** The place of an indicator type among the patterns of the extractor. *)
Definition type_rank (ty : string) : nat :=
  index_of ty (map fst IOCExtractor.patterns).

(** An indicator comes no later than another in the order of the patterns. *)
Definition by_pattern_order (i j : indicator) : Prop :=
  (type_rank (ioc_type i) ≤ type_rank (ioc_type j))%nat.

Section ModelVocabulary.
Context `{Library}.

(** Both parts of a model object are in place. *)
Definition trained (m : SimplePhishingML.model) : Prop :=
  is_Some (SimplePhishingML.rf_model m)
  ∧ is_Some (SimplePhishingML.tfidf_vectorizer m).




End ModelVocabulary.

(** The recipients one header contributes. *)
Definition recipients_of (value : string) : list string :=
  if String.eqb value "" then []
  else map PyText.strip (PyText.split_on "," value).

(** *** What a pattern matches *)

(** [matches icase r prev s prev' s']: read from the input [s], with [prev]
    the character before it, the pattern [r] matches a prefix of [s] and
    leaves [s'], with [prev'] the character before [s']. *)
Inductive matches (icase : bool)
  : Re.regex → option ascii → string → option ascii → string → Prop :=
| matches_eps prev s : matches icase Re.Eps prev s prev s
| matches_cls p prev c s :
    Re.cls_accepts icase p c = true →
    matches icase (Re.Cls p) prev (String c s) (Some c) s
| matches_cat r1 r2 prev s prev1 s1 prev2 s2 :
    matches icase r1 prev s prev1 s1 →
    matches icase r2 prev1 s1 prev2 s2 →
    matches icase (Re.Cat r1 r2) prev s prev2 s2
| matches_alt_l r1 r2 prev s prev' s' :
    matches icase r1 prev s prev' s' →
    matches icase (Re.Alt r1 r2) prev s prev' s'
| matches_alt_r r1 r2 prev s prev' s' :
    matches icase r2 prev s prev' s' →
    matches icase (Re.Alt r1 r2) prev s prev' s'
| matches_rep_stop hi r prev s : matches icase (Re.Rep 0 hi r) prev s prev s
| matches_rep_step lo hi r prev s prev1 s1 prev2 s2 :
    Re.hi_exhausted hi = false →
    matches icase r prev s prev1 s1 →
    matches icase (Re.Rep (Nat.pred lo) (Re.dec_hi hi) r) prev1 s1 prev2 s2 →
    matches icase (Re.Rep lo hi r) prev s prev2 s2
| matches_wordb prev s :
    xorb (Re.is_word prev) (Re.is_word (Re.peek s)) = true →
    matches icase Re.WordB prev s prev s.




(* ===================================================================== *)
(** * Properties *)
(* ===================================================================== *)

(** ** Substring search *)

Lemma append_cons (c : ascii) (s t : string) :
  String c s +:+ t = String c (s +:+ t).
Proof. reflexivity. Qed.

Lemma append_nil (t : string) : "" +:+ t = t.
Proof. reflexivity. Qed.

Lemma prefix_spec (sub s : string) :
  String.prefix sub s = true ↔ ∃ post, s = sub +:+ post.
Proof.
  revert s. induction sub as [|c sub IH]; intros [|d s]; simpl.
  - split; eauto.
  - split; eauto.
  - split; [discriminate | intros [post Hp]; discriminate].
  - setoid_rewrite append_cons.
    destruct (ascii_dec c d) as [->|Hne].
    + rewrite IH. split; intros [post Hp]; exists post; congruence.
    + split; [discriminate | intros [post Hp]; congruence].
Qed.

Lemma contains_cons (sub : string) (c : ascii) (s : string) :
  PyStr.contains sub (String c s)
  = String.prefix sub (String c s) || PyStr.contains sub s.
Proof. reflexivity. Qed.

Lemma contains_nil (sub : string) :
  PyStr.contains sub "" = String.prefix sub "" || false.
Proof. reflexivity. Qed.

Lemma contains_spec (sub s : string) :
  PyStr.contains sub s = true ↔ is_substring sub s.
Proof.
  unfold is_substring.
  induction s as [|c s IH].
  - rewrite contains_nil, orb_false_r, prefix_spec. split.
    + intros [post Hp]. exists "", post. exact Hp.
    + intros ([|d pre] & post & Hp); [eauto | discriminate].
  - rewrite contains_cons, orb_true_iff, prefix_spec, IH. split.
    + intros [[post Hp] | (pre & post & Hp)].
      * exists "", post. exact Hp.
      * exists (String c pre), post. rewrite append_cons. congruence.
    + intros ([|d pre] & post & Hp).
      * left. eauto.
      * right. exists pre, post. rewrite append_cons in Hp. congruence.
Qed.

Lemma any_in_spec (words : list string) (text : string) :
  PyStr.any_in words text = true ↔ ∃ w, In w words ∧ is_substring w text.
Proof.
  unfold PyStr.any_in. rewrite existsb_exists.
  split; intros (w & Hin & Hw); exists w; split; auto; by apply contains_spec.
Qed.

Lemma any_in_suspicious (value : string) :
  PyStr.any_in IOCExtractor.suspicious_tlds (PyStr.lower value) = true
  ↔ has_suspicious_tld value.
Proof. apply any_in_spec. Qed.

(** ** Indicator severity *)

Lemma severity_url (value : string) :
  IOCExtractor._determine_severity "url" value
  = if PyStr.any_in IOCExtractor.suspicious_tlds (PyStr.lower value)
    then "high" else "medium".
Proof. reflexivity. Qed.

Lemma severity_domain (value : string) :
  IOCExtractor._determine_severity "domain" value
  = if PyStr.any_in IOCExtractor.suspicious_tlds (PyStr.lower value)
    then "high" else "low".
Proof. reflexivity. Qed.

(** C5. Severity is a function of the indicator's type and value alone:
    the three hash types are high, an IPv4 address is medium, a URL is high
    when its lower-cased value contains a suspicious top-level domain and
    medium otherwise, a domain is high in that case and low otherwise, an
    e-mail address is low; equal arguments give equal severities. *)
Theorem determine_severity_table (value : string) :
  IOCExtractor._determine_severity "md5" value = "high"
  ∧ IOCExtractor._determine_severity "sha1" value = "high"
  ∧ IOCExtractor._determine_severity "sha256" value = "high"
  ∧ IOCExtractor._determine_severity "ipv4" value = "medium"
  ∧ (has_suspicious_tld value →
       IOCExtractor._determine_severity "url" value = "high")
  ∧ (¬ has_suspicious_tld value →
       IOCExtractor._determine_severity "url" value = "medium")
  ∧ (has_suspicious_tld value →
       IOCExtractor._determine_severity "domain" value = "high")
  ∧ (¬ has_suspicious_tld value →
       IOCExtractor._determine_severity "domain" value = "low")
  ∧ IOCExtractor._determine_severity "email" value = "low"
  ∧ (∀ ty ty' value', ty = ty' → value = value' →
       IOCExtractor._determine_severity ty value
       = IOCExtractor._determine_severity ty' value').
Proof.
  repeat split; try reflexivity.
  - intros Hs. rewrite severity_url. by apply any_in_suspicious in Hs as ->.
  - intros Hs. rewrite severity_url.
    destruct (PyStr.any_in _ _) eqn:E; [|done].
    exfalso. by apply Hs, any_in_suspicious.
  - intros Hs. rewrite severity_domain. by apply any_in_suspicious in Hs as ->.
  - intros Hs. rewrite severity_domain.
    destruct (PyStr.any_in _ _) eqn:E; [|done].
    exfalso. by apply Hs, any_in_suspicious.
  - intros ty ty' value' -> ->. reflexivity.
Qed.

(** The table of C5 at a URL under [.tk] that is written in capitals. *)
Lemma determine_severity_table_witness :
  IOCExtractor._determine_severity "url" "HTTP://EVIL.TK/a" = "high"
  ∧ IOCExtractor._determine_severity "domain" "example.com" = "low".
Proof.
  split.
  - destruct (determine_severity_table "HTTP://EVIL.TK/a")
      as (_ & _ & _ & _ & Hurl & _).
    apply Hurl, any_in_suspicious. vm_compute. reflexivity.
  - destruct (determine_severity_table "example.com")
      as (_ & _ & _ & _ & _ & _ & _ & Hdomain & _).
    apply Hdomain. intros Hs. apply any_in_suspicious in Hs.
    vm_compute in Hs. discriminate.
Defined.

(** ** Risk level *)

Lemma Qle_bool_false (x y : Q) : Qle_bool x y = false ↔ (y < x)%Q.
Proof.
  split.
  - intros E. apply Qnot_le_lt. intros Hle. apply Qle_bool_iff in Hle. congruence.
  - intros Hlt. destruct (Qle_bool x y) eqn:E; [|done].
    apply Qle_bool_iff in E. exfalso. by apply (Qlt_not_le y x).
Qed.

(** Two bounds on the same confidence that cannot hold together. *)
Ltac q_contra :=
  match goal with
  | Hlt : (?c < ?a)%Q, Hle : (?b <= ?c)%Q |- _ =>
      exfalso; apply (Qlt_not_le c a Hlt);
      apply Qle_trans with b; [ by vm_compute | exact Hle ]
  end.

(** C3. The risk level is Critical for a phishing verdict with confidence
    at least 80, High for one with confidence in [60, 80), Medium for one
    below 60, Low for a legitimate verdict with confidence at least 40 and
    Safe below 40; the five sample points of the specification follow. *)
Theorem get_risk_level_table (is_phishing : bool) (confidence : Q) :
  (App.get_risk_level is_phishing confidence = "Critical"
     ↔ is_phishing = true ∧ (80 <= confidence)%Q)
  ∧ (App.get_risk_level is_phishing confidence = "High"
     ↔ is_phishing = true ∧ (60 <= confidence)%Q ∧ (confidence < 80)%Q)
  ∧ (App.get_risk_level is_phishing confidence = "Medium"
     ↔ is_phishing = true ∧ (confidence < 60)%Q)
  ∧ (App.get_risk_level is_phishing confidence = "Low"
     ↔ is_phishing = false ∧ (40 <= confidence)%Q)
  ∧ (App.get_risk_level is_phishing confidence = "Safe"
     ↔ is_phishing = false ∧ (confidence < 40)%Q)
  ∧ App.get_risk_level true 85 = "Critical"
  ∧ App.get_risk_level true 65 = "High"
  ∧ App.get_risk_level true 50 = "Medium"
  ∧ App.get_risk_level false 45 = "Low"
  ∧ App.get_risk_level false 10 = "Safe".
Proof.
  unfold App.get_risk_level.
  destruct is_phishing;
    [ destruct (Qle_bool 80 confidence) eqn:E80;
      [ | destruct (Qle_bool 60 confidence) eqn:E60 ]
    | destruct (Qle_bool 40 confidence) eqn:E40 ];
    repeat match goal with
           | E : Qle_bool _ _ = true |- _ => apply Qle_bool_iff in E
           | E : Qle_bool _ _ = false |- _ => apply Qle_bool_false in E
           end;
    repeat split; try reflexivity; try discriminate; try assumption;
    intros; destruct_and?; try discriminate; try q_contra.
Qed.

(** ** The end-to-end example *)

(** The indicators extracted from the sample e-mail: its link, the
    sender's address and their domain. *)
Lemma bank_iocs_value :
  Samples.bank_iocs
  = [ {| ioc_type := "url"; ioc_value := "http://secure-bank.tk/login";
         severity := "high" |};
      {| ioc_type := "email"; ioc_value := "security@secure-bank.tk";
         severity := "low" |};
      {| ioc_type := "domain"; ioc_value := "secure-bank.tk";
         severity := "high" |} ].
Proof. vm_compute. reflexivity. Qed.

(** C4, as the code computes it.  For the sample e-mail and its extracted
    indicators the rule score is 120 = 30 (urgency) + 25 (suspicious
    keywords) + 35 (sender TLD) + 30 (indicators), so the verdict is
    phishing; five urgency words occur, so the urgency part of the
    confidence is min(5*8, 25) = 25 and the confidence is
    72 = 25 + 7 + 20 + 20, which is risk level High. *)
Theorem bank_email_scores :
  App.Rule.urgency_points Samples.bank_email = 30%Z
  ∧ App.Rule.suspicious_count Samples.bank_email = 3%Z
  ∧ App.Rule.keyword_points Samples.bank_email = 25%Z
  ∧ App.Rule.sender_points Samples.bank_email = 35%Z
  ∧ App.Rule.ioc_points Samples.bank_iocs = 30%Z
  ∧ App.Rule.phishing_score Samples.bank_email Samples.bank_iocs = 120%Z
  ∧ App.detect_phishing_simple Samples.bank_email Samples.bank_iocs = true
  ∧ App.Confidence.urgency_count Samples.bank_email = 5%Z
  ∧ App.Confidence.urgency_points Samples.bank_email = 25%Z
  ∧ App.Confidence.keyword_points Samples.bank_email = 7%Z
  ∧ App.Confidence.sender_points Samples.bank_email = 20%Z
  ∧ App.Confidence.high_points Samples.bank_iocs = 20%Z
  ∧ App.Confidence.medium_points Samples.bank_iocs = 0%Z
  ∧ App.calculate_confidence_score Samples.bank_email Samples.bank_iocs = 72%Z
  ∧ App.get_risk_level
      (App.detect_phishing_simple Samples.bank_email Samples.bank_iocs)
      (inject_Z (App.calculate_confidence_score Samples.bank_email Samples.bank_iocs))
    = "High".
Proof. vm_compute. repeat split; reflexivity. Qed.

(** C4 as stated fails: the confidence of the sample e-mail is not 71 and
    its urgency part is not 24. *)
Lemma bank_email_confidence_not_71 :
  ¬ (App.Rule.phishing_score Samples.bank_email Samples.bank_iocs = 120%Z
     ∧ App.detect_phishing_simple Samples.bank_email Samples.bank_iocs = true
     ∧ App.Confidence.urgency_points Samples.bank_email = 24%Z
     ∧ App.calculate_confidence_score Samples.bank_email Samples.bank_iocs = 71%Z
     ∧ App.get_risk_level
         (App.detect_phishing_simple Samples.bank_email Samples.bank_iocs)
         (inject_Z (App.calculate_confidence_score Samples.bank_email
                      Samples.bank_iocs))
       = "High").
Proof.
  intros (_ & _ & _ & Hconf & _). vm_compute in Hconf. discriminate.
Qed.

(** ** The serving path *)

Section Serving.
Context `{Library}.

Lemma detection_step_model_path (ml_model : SimplePhishingML.model)
    (e : email_data) (iocs : list indicator) :
  App.detection_step true ml_model e iocs
  = try_except (App.model_path_body ml_model e iocs)
               (fun _ => Ok (App.rule_based e iocs)).
Proof. reflexivity. Qed.

(** The detection step never raises, with or without a model. *)
Lemma detection_step_total (available : bool) (ml_model : SimplePhishingML.model)
    (e : email_data) (iocs : list indicator) :
  ∃ v, App.detection_step available ml_model e iocs = Ok v.
Proof.
  destruct available; [rewrite detection_step_model_path | by eexists].
  destruct (App.model_path_body ml_model e iocs); by eexists.
Qed.

(** When inference raises, so does the body of the [try] block. *)
Lemma model_path_body_raises (ml_model : SimplePhishingML.model)
    (e : email_data) (iocs : list indicator) (err : exn) :
  SimplePhishingML.predict ml_model e = Raise err →
  App.model_path_body ml_model e iocs = Raise err.
Proof. intros Hp. unfold App.model_path_body. by rewrite Hp. Qed.

End Serving.

(** C1. When a model is loaded and inference raises, the detection step
    still returns a verdict, and that verdict is the rule engine's:
    [is_phishing] from [detect_phishing_simple], the confidence from
    [calculate_confidence_score], and the model version recorded as
    rule-based-v1.0. *)
Theorem inference_error_falls_back_to_rules `{Library}
    (ml_model : SimplePhishingML.model) (e : email_data)
    (iocs : list indicator) (err : exn) :
  SimplePhishingML.predict ml_model e = Raise err →
  ∃ v, App.detection_step true ml_model e iocs = Ok v
       ∧ App.is_phishing v = App.detect_phishing_simple e iocs
       ∧ App.confidence_score v = inject_Z (App.calculate_confidence_score e iocs)
       ∧ App.predicted_class (App.ml_prediction v)
         = App.class_name (App.detect_phishing_simple e iocs)
       ∧ App.model_version (App.ml_prediction v) = "rule-based-v1.0".
Proof.
  intros Hp. exists (App.rule_based e iocs).
  rewrite detection_step_model_path, (model_path_body_raises _ _ _ _ Hp).
  repeat split.
Qed.

(** C1 at the sample e-mail, with a loaded model whose classifier rejects
    the feature vector: inference raises and the rules answer. *)
Lemma inference_error_falls_back_to_rules_witness :
  ∃ v, App.detection_step (H := Samples.refusing_library) true
         (Samples.loaded_model (H := Samples.refusing_library) tt tt)
         Samples.bank_email Samples.bank_iocs = Ok v
       ∧ App.is_phishing v
         = App.detect_phishing_simple Samples.bank_email Samples.bank_iocs
       ∧ App.confidence_score v
         = inject_Z (App.calculate_confidence_score Samples.bank_email
                       Samples.bank_iocs)
       ∧ App.predicted_class (App.ml_prediction v)
         = App.class_name
             (App.detect_phishing_simple Samples.bank_email Samples.bank_iocs)
       ∧ App.model_version (App.ml_prediction v) = "rule-based-v1.0".
Proof.
  apply (inference_error_falls_back_to_rules (H := Samples.refusing_library)
           (Samples.loaded_model (H := Samples.refusing_library) tt tt)
           Samples.bank_email Samples.bank_iocs
           (LibraryError "feature count mismatch")).
  vm_compute. reflexivity.
Defined.

(** ** De-duplication of matches *)

Lemma seen_spec (keys : list string) (k : string) :
  existsb (String.eqb k) keys = true ↔ k ∈ keys.
Proof.
  rewrite existsb_exists, list_elem_of_In. split.
  - intros (x & Hin & Heq). apply String.eqb_eq in Heq. by subst.
  - intros Hin. exists k. split; [done | apply String.eqb_refl].
Qed.


Lemma fromkeys_snoc (l : list string) (x : string) :
  IOCExtractor.fromkeys (l ++ [x])
  = IOCExtractor.add_key (IOCExtractor.fromkeys l) x.
Proof. unfold IOCExtractor.fromkeys. by rewrite fold_left_app. Qed.

Lemma add_key_seen (keys : list string) (k : string) :
  k ∈ keys → IOCExtractor.add_key keys k = keys.
Proof.
  intros Hin. unfold IOCExtractor.add_key.
  by apply seen_spec in Hin as ->.
Qed.

Lemma add_key_new (keys : list string) (k : string) :
  k ∉ keys → IOCExtractor.add_key keys k = keys ++ [k].
Proof.
  intros Hin. unfold IOCExtractor.add_key.
  destruct (existsb _ _) eqn:E; [|done].
  by apply seen_spec in E.
Qed.


Lemma fromkeys_NoDup (l : list string) : NoDup (IOCExtractor.fromkeys l).
Proof.
  induction l as [|x l IH] using rev_ind; [constructor|].
  rewrite fromkeys_snoc.
  destruct (decide (x ∈ IOCExtractor.fromkeys l)) as [Hin|Hout].
  - by rewrite add_key_seen.
  - rewrite add_key_new by done. apply NoDup_app. split_and!; [done| |].
    + intros y Hy ->%list_elem_of_singleton. done.
    + apply NoDup_singleton.
Qed.





(** ** The dictionary built by [extract_iocs] *)




Lemma patterns_keys_NoDup : NoDup (map fst IOCExtractor.patterns).
Proof.
  simpl. repeat (apply NoDup_cons; split; [set_solver|]). constructor.
Qed.

(** ** From the dictionary to the list of indicators *)

Lemma extract_with_keys_sublist (pats : list (string * Re.regex)) (text : string) :
  sublist (PyDict.keys (IOCExtractor.extract_with pats text)) (map fst pats).
Proof.
  induction pats as [|[ty pat] pats IH]; simpl; [constructor|].
  destruct (IOCExtractor.fromkeys _); simpl.
  - by apply sublist_cons.
  - by apply sublist_skip.
Qed.

Lemma extract_iocs_keys_NoDup (text : string) :
  NoDup (PyDict.keys (IOCExtractor.extract_iocs text)).
Proof.
  eapply sublist_NoDup; [apply patterns_keys_NoDup|].
  apply extract_with_keys_sublist.
Qed.

Lemma extract_from_email_listed (e : email_data) :
  IOCExtractor.extract_from_email e
  = listed (IOCExtractor.extract_iocs (IOCExtractor.combined_text e)).
Proof. reflexivity. Qed.







(** ** The IPv4 pattern on dotted quads *)

Module QuadMatch.
Import Re.









Lemma length_append (x y : string) :
  String.length (x +:+ y) = (String.length x + String.length y)%nat.
Proof.
  induction x as [|c x IH]; [done|].
  rewrite append_cons. cbn [String.length]. by rewrite IH.
Qed.

Lemma append_assoc (x y z : string) : (x +:+ y) +:+ z = x +:+ (y +:+ z).
Proof.
  induction x as [|c x IH]; [done|].
  rewrite !append_cons. by rewrite IH.
Qed.














(** ** Scanning a text made of dotted quads *)

















End QuadMatch.



(** The same text, evaluated: the listing keeps first-seen order. *)
Example extract_iocs_sample :
  Re.findall true IOCExtractor.ipv4_pattern
    "from 10.0.0.1 via 192.168.1.1, 10.0.0.1 and 8.8.8.8; 192.168.1.1"
  = ["10.0.0.1"; "192.168.1.1"; "10.0.0.1"; "8.8.8.8"; "192.168.1.1"]
  ∧ PyDict.get
      (IOCExtractor.extract_iocs
         "from 10.0.0.1 via 192.168.1.1, 10.0.0.1 and 8.8.8.8; 192.168.1.1")
      "ipv4"
    = Some ["10.0.0.1"; "192.168.1.1"; "8.8.8.8"].
Proof. vm_compute. split; reflexivity. Qed.

(** ** Indicator counts in training records *)

Lemma count_ioc_same (m : gmap string Z) (r : Db.IOC) :
  AutoRetrainer.get0 (AutoRetrainer.count_ioc m r) (Db.ioc_type r)
  = (AutoRetrainer.get0 m (Db.ioc_type r) + 1)%Z.
Proof.
  unfold AutoRetrainer.get0, AutoRetrainer.count_ioc.
  rewrite lookup_insert_eq. simpl.
  destruct (m !! Db.ioc_type r) eqn:E; simpl.
  - by rewrite E.
  - by rewrite lookup_insert_eq.
Qed.

Lemma count_ioc_other (m : gmap string Z) (r : Db.IOC) (ty : string) :
  Db.ioc_type r ≠ ty →
  AutoRetrainer.get0 (AutoRetrainer.count_ioc m r) ty = AutoRetrainer.get0 m ty.
Proof.
  intros Hne. unfold AutoRetrainer.get0, AutoRetrainer.count_ioc.
  rewrite lookup_insert_ne by done.
  destruct (m !! Db.ioc_type r); [done|].
  by rewrite lookup_insert_ne.
Qed.

Lemma ioc_counts_from (iocs : list Db.IOC) (m : gmap string Z) (ty : string) :
  AutoRetrainer.get0 (fold_left AutoRetrainer.count_ioc iocs m) ty
  = (AutoRetrainer.get0 m ty + count_type ty iocs)%Z.
Proof.
  revert m. induction iocs as [|r iocs IH]; intros m; simpl.
  - unfold count_type. simpl. lia.
  - rewrite IH. unfold count_type. simpl.
    destruct (String.eqb_spec (Db.ioc_type r) ty) as [<-|Hne].
    + rewrite count_ioc_same. simpl length. lia.
    + by rewrite count_ioc_other.
Qed.

(** [ioc_counts.get(ty, 0)] is the number of indicators of type [ty]. *)
Lemma ioc_counts_get0 (iocs : list Db.IOC) (ty : string) :
  AutoRetrainer.get0 (AutoRetrainer.ioc_counts_of iocs) ty = count_type ty iocs.
Proof.
  unfold AutoRetrainer.ioc_counts_of. rewrite ioc_counts_from.
  unfold AutoRetrainer.get0. by rewrite lookup_empty.
Qed.


Lemma count_type_pos (ty : string) (iocs : list Db.IOC) (r : Db.IOC) :
  r ∈ iocs → Db.ioc_type r = ty → (0 < count_type ty iocs)%Z.
Proof.
  intros Hin Hty. unfold count_type.
  induction iocs as [|r' iocs IH]; simpl.
  - by apply elem_of_nil in Hin.
  - apply elem_of_cons in Hin as [<- | Hin].
    + rewrite Hty, String.eqb_refl. simpl length. lia.
    + destruct (String.eqb _ _); simpl length; [lia | by apply IH].
Qed.



Section Records.
Context `{Library}.


End Records.


(** The indicators stored for the digest e-mail: one sha1, rated high. *)
Example digest_email_iocs :
  Db.iocs Samples.history_sha1
  = [ {| Db.email_id := Some 1%Z; Db.ioc_type := "sha1";
         Db.ioc_value := "da39a3ee5e6b4b0d3255bfef95601890afd80709";
         Db.severity := "high" |} ].
Proof. vm_compute. reflexivity. Qed.


(** ** The feature encoder *)

Lemma keys_set {V : Type} (d : list (string * V)) (k : string) (v : V) :
  PyDict.keys (PyDict.set d k v) = IOCExtractor.add_key (PyDict.keys d) k.
Proof.
  unfold IOCExtractor.add_key.
  induction d as [|[k' v'] d IH]; [done|].
  cbn [PyDict.set PyDict.keys map fst existsb].
  rewrite (String.eqb_sym k k').
  destruct (String.eqb k' k) eqn:E; cbn [orb].
  - apply String.eqb_eq in E as ->. done.
  - cbn [map fst]. fold (PyDict.keys (PyDict.set d k v)). rewrite IH.
    fold (PyDict.keys d).
    by destruct (existsb (String.eqb k) (PyDict.keys d)).
Qed.

Lemma keys_update {V : Type} (d1 d2 : list (string * V)) :
  PyDict.keys (PyDict.update d1 d2)
  = fold_left IOCExtractor.add_key (PyDict.keys d2) (PyDict.keys d1).
Proof.
  unfold PyDict.update. revert d1.
  induction d2 as [|[k v] d2 IH]; intros d1; simpl; [done|].
  by rewrite IH, keys_set.
Qed.

Lemma np_mean_ok (x : Z) (l : list Z) : ∃ q, np_mean (x :: l) = Ok q.
Proof. by eexists. Qed.

Lemma py_max_ok (x : Z) (l : list Z) : ∃ m, py_max (x :: l) = Ok m.
Proof. by eexists. Qed.

Lemma py_truediv_ok (a b : Z) : (b >? 0)%Z = true → ∃ q, py_truediv a b = Ok q.
Proof.
  intros Hb. unfold py_truediv.
  destruct (Z.eqb_spec b 0) as [->|_]; [discriminate | by eexists].
Qed.

Lemma extract_text_features_ok (text : string) :
  ∃ fs, FeatureExtractor.extract_text_features text = Ok fs
        ∧ PyDict.keys fs = firstn 8 feature_schema.
Proof.
  unfold FeatureExtractor.extract_text_features.
  destruct (PyStr.split text) as [|w ws]; simpl FeatureExtractor.truthy;
    [|destruct (np_mean_ok (PyStr.len w) (map PyStr.len ws)) as [q Hq];
      change (map PyStr.len (w :: ws)) with (PyStr.len w :: map PyStr.len ws);
      rewrite Hq];
    (destruct (PyStr.len text >? 0)%Z eqn:Hlen;
     [ destruct (py_truediv_ok (PyStr.count_chars PyStr.is_upper text)
                   (PyStr.len text) Hlen) as [r Hr]; rewrite Hr | ]);
    eexists; split; reflexivity.
Qed.

Lemma extract_url_features_ok (text : string) :
  ∃ fs, FeatureExtractor.extract_url_features text = Ok fs
        ∧ PyDict.keys fs = firstn 7 (skipn 8 feature_schema).
Proof.
  unfold FeatureExtractor.extract_url_features.
  destruct (Re.findall true IOCExtractor.url_pattern text) as [|u us];
    eexists; split; reflexivity.
Qed.

Lemma extract_email_features_ok (e : email_data) :
  ∃ fs, FeatureExtractor.extract_email_features e = Ok fs
        ∧ PyDict.keys fs = firstn 6 (skipn 15 feature_schema).
Proof. eexists; split; reflexivity. Qed.

Lemma extract_keyword_features_ok (text : string) :
  ∃ fs, FeatureExtractor.extract_keyword_features text = Ok fs
        ∧ PyDict.keys fs = firstn 4 (skipn 21 feature_schema).
Proof. eexists; split; reflexivity. Qed.

Lemma extract_ioc_features_ok (e : email_data) :
  ∃ fs, FeatureExtractor.extract_ioc_features e = Ok fs
        ∧ PyDict.keys fs = skipn 25 feature_schema.
Proof. eexists; split; reflexivity. Qed.

(** The encoder returns a dictionary, and its keys are the schema. *)
Lemma extract_all_features_ok (e : email_data) :
  ∃ fs, FeatureExtractor.extract_all_features e = Ok fs
        ∧ PyDict.keys fs = feature_schema.
Proof.
  unfold FeatureExtractor.extract_all_features.
  destruct (extract_text_features_ok (FeatureExtractor.subject_and_body e))
    as (f1 & -> & K1).
  destruct (extract_url_features_ok (FeatureExtractor.subject_and_body e))
    as (f2 & -> & K2).
  destruct (extract_email_features_ok e) as (f3 & -> & K3).
  destruct (extract_keyword_features_ok (FeatureExtractor.subject_and_body e))
    as (f4 & -> & K4).
  destruct (extract_ioc_features_ok e) as (f5 & -> & K5).
  eexists. split; [reflexivity|].
  cbn [fold_left]. rewrite !keys_update, K1, K2, K3, K4, K5.
  vm_compute. reflexivity.
Qed.

Lemma sorted_schema : sorted feature_schema = canonical_names.
Proof. vm_compute. reflexivity. Qed.

#[local] Instance name_lt_dec : RelDecision name_lt.
Proof. intros a b. unfold name_lt. apply _. Defined.

Lemma canonical_names_sorted : StronglySorted name_lt canonical_names.
Proof. apply (bool_decide_unpack _). vm_compute. reflexivity. Qed.

Lemma canonical_names_perm : canonical_names ≡ₚ feature_schema.
Proof. rewrite <- sorted_schema. symmetry. apply StringSort.Permuted_sort. Qed.

Lemma get_present {V : Type} (d : list (string * V)) (k : string) :
  k ∈ PyDict.keys d → ∃ v, PyDict.get d k = Some v.
Proof.
  induction d as [|[k' v] d IH]; simpl.
  - intros Hk. by apply elem_of_nil in Hk.
  - rewrite elem_of_cons. intros [-> | Hk].
    + rewrite String.eqb_refl. by eexists.
    + destruct (String.eqb k' k); [by eexists | by apply IH].
Qed.

Lemma item_present {V : Type} (d : list (string * V)) (k : string) (v : V) :
  PyDict.get d k = Some v → PyDict.item d k = Ok v.
Proof. intros Hv. unfold PyDict.item. by rewrite Hv. Qed.

(** Reading the values of names that are all keys of the dictionary. *)
Lemma read_values (fs : FeatureExtractor.features) (names : list string) :
  (∀ name, name ∈ names → name ∈ PyDict.keys fs) →
  mapM (fun name => to_float <$> PyDict.item fs name) names
  = Ok (map (fun name => to_float (default (VInt 0) (PyDict.get fs name))) names).
Proof.
  induction names as [|name names IH]; intros Hall; [done|].
  cbn [mapM map].
  destruct (get_present fs name) as [v Hv]; [apply Hall; set_solver|].
  rewrite (item_present _ _ _ Hv), Hv.
  rewrite IH by (intros n Hn; apply Hall; set_solver).
  reflexivity.
Qed.

Lemma get_feature_names_ok (e : email_data) :
  FeatureExtractor.get_feature_names e = Ok canonical_names.
Proof.
  unfold FeatureExtractor.get_feature_names.
  destruct (extract_all_features_ok e) as (fs & -> & K).
  cbn. by rewrite K, sorted_schema.
Qed.

Lemma get_feature_vector_ok (e : email_data) (fs : FeatureExtractor.features) :
  FeatureExtractor.extract_all_features e = Ok fs →
  FeatureExtractor.get_feature_vector e
  = Ok (map (fun name => to_float (default (VInt 0) (PyDict.get fs name)))
            canonical_names).
Proof.
  intros Hfs. unfold FeatureExtractor.get_feature_vector. rewrite Hfs. cbn.
  destruct (extract_all_features_ok e) as (fs' & Hfs' & K).
  assert (fs' = fs) as -> by congruence.
  rewrite K, sorted_schema. apply read_values.
  intros name Hname. rewrite K.
  by rewrite <- canonical_names_perm.
Qed.

(** C7. Any two e-mails are encoded over the same feature names: the
    dictionaries of [extract_all_features] have the same keys, and
    [get_feature_vector] lists the values of both in the same order, that
    of the names sorted lexicographically. *)
Theorem feature_schema_is_fixed (e1 e2 : email_data) :
  ∃ fs1 fs2,
    FeatureExtractor.extract_all_features e1 = Ok fs1
    ∧ FeatureExtractor.extract_all_features e2 = Ok fs2
    ∧ PyDict.keys fs1 = feature_schema
    ∧ PyDict.keys fs2 = feature_schema
    ∧ FeatureExtractor.get_feature_names e1 = Ok canonical_names
    ∧ FeatureExtractor.get_feature_names e2 = Ok canonical_names
    ∧ StronglySorted name_lt canonical_names
    ∧ canonical_names ≡ₚ feature_schema
    ∧ FeatureExtractor.get_feature_vector e1
      = Ok (map (fun name => to_float (default (VInt 0) (PyDict.get fs1 name)))
                canonical_names)
    ∧ FeatureExtractor.get_feature_vector e2
      = Ok (map (fun name => to_float (default (VInt 0) (PyDict.get fs2 name)))
                canonical_names).
Proof.
  destruct (extract_all_features_ok e1) as (fs1 & H1 & K1).
  destruct (extract_all_features_ok e2) as (fs2 & H2 & K2).
  exists fs1, fs2. split_and!; try done.
  - apply get_feature_names_ok.
  - apply get_feature_names_ok.
  - apply canonical_names_sorted.
  - apply canonical_names_perm.
  - by apply get_feature_vector_ok.
  - by apply get_feature_vector_ok.
Qed.


(** ** The retraining run *)


Section Retraining.
Context `{Library}.













End Retraining.






(* ===================================================================== *)
(** * Further properties of the rule engine *)
(* ===================================================================== *)

Lemma hits_nonneg (words : list string) (text : string) :
  (0 ≤ PyStr.hits words text)%Z.
Proof. unfold PyStr.hits. lia. Qed.

Lemma hits_bound (words : list string) (text : string) :
  (PyStr.hits words text ≤ Z.of_nat (length words))%Z.
Proof.
  unfold PyStr.hits. apply inj_le.
  induction words as [|w words IH]; simpl; [lia|].
  destruct (PyStr.contains w text); simpl; lia.
Qed.

Lemma severity_count_nonneg (level : string) (iocs : list indicator) :
  (0 ≤ App.Confidence.severity_count level iocs)%Z.
Proof. unfold App.Confidence.severity_count. lia. Qed.

(** X1. The confidence score lies between 0 and 100 before the final clamp
    already, so the clamp of [calculate_confidence_score] never changes it:
    the five parts are capped at 25, 20, 20, 20 and 15. *)
Theorem confidence_score_range (e : email_data) (iocs : list indicator) :
  (0 ≤ App.calculate_confidence_score e iocs ≤ 100)%Z
  ∧ App.calculate_confidence_score e iocs = App.Confidence.score e iocs
  ∧ (0 ≤ App.Confidence.urgency_points e ≤ 25)%Z
  ∧ (0 ≤ App.Confidence.keyword_points e ≤ 20)%Z
  ∧ (0 ≤ App.Confidence.sender_points e ≤ 20)%Z
  ∧ (0 ≤ App.Confidence.high_points iocs ≤ 20)%Z
  ∧ (0 ≤ App.Confidence.medium_points iocs ≤ 15)%Z.
Proof.
  unfold App.calculate_confidence_score, App.Confidence.score,
    App.Confidence.urgency_points, App.Confidence.keyword_points,
    App.Confidence.sender_points, App.Confidence.high_points,
    App.Confidence.medium_points, App.Confidence.urgency_count,
    App.Confidence.suspicious_count.
  pose proof (hits_nonneg App.urgency_words (App.combined_text e)).
  pose proof (hits_nonneg App.Confidence.suspicious_keywords (App.combined_text e)).
  pose proof (severity_count_nonneg "high" iocs).
  pose proof (severity_count_nonneg "medium" iocs).
  destruct (PyStr.any_in App.suspicious_tlds _); lia.
Qed.

(** The indicator score of the rule engine grows with every indicator. *)
Lemma ioc_step_grows (score : Z) (ioc : indicator) :
  (score ≤ App.Rule.ioc_step score ioc)%Z.
Proof.
  unfold App.Rule.ioc_step.
  destruct (existsb _ _), (String.eqb (severity ioc) "high"),
    (String.eqb (severity ioc) "medium"); lia.
Qed.

Lemma ioc_fold_grows (iocs : list indicator) (score : Z) :
  (score ≤ fold_left App.Rule.ioc_step iocs score)%Z.
Proof.
  revert score. induction iocs as [|ioc iocs IH]; intros score; simpl; [lia|].
  pose proof (ioc_step_grows score ioc). pose proof (IH (App.Rule.ioc_step score ioc)).
  lia.
Qed.

Lemma ioc_points_range (iocs : list indicator) :
  (0 ≤ App.Rule.ioc_points iocs ≤ 40)%Z.
Proof.
  unfold App.Rule.ioc_points, App.Rule.ioc_score.
  pose proof (ioc_fold_grows iocs 0). lia.
Qed.

(** X2. The rule score lies between 0 and 165, it is the sum of six parts none
    of which exceeds 40, and so no single part makes an e-mail phishing: a
    phishing verdict needs at least two parts that contribute. *)
Theorem rule_score_needs_two_signals (e : email_data) (iocs : list indicator) :
  (0 ≤ App.Rule.phishing_score e iocs ≤ 165)%Z
  ∧ App.Rule.phishing_score e iocs = sumZ (rule_parts e iocs)
  ∧ Forall (fun part => (0 ≤ part ≤ 40)%Z) (rule_parts e iocs)
  ∧ (App.detect_phishing_simple e iocs = true →
       (2 ≤ length (List.filter (fun part => (0 <? part)%Z) (rule_parts e iocs)))%nat).
Proof.
  pose proof (ioc_points_range iocs) as Hioc.
  unfold App.detect_phishing_simple, rule_parts, App.Rule.phishing_score,
    App.Rule.urgency_points, App.Rule.keyword_points, App.Rule.sender_points,
    App.Rule.link_points, App.Rule.ip_points.
  remember (App.Rule.ioc_points iocs) as p eqn:Hp. clear Hp.
  destruct (App.Rule.urgency_count e >=? 3)%Z, (App.Rule.urgency_count e >=? 1)%Z,
    (App.Rule.suspicious_count e >=? 3)%Z, (App.Rule.suspicious_count e >=? 1)%Z,
    (PyStr.any_in App.suspicious_tlds _),
    (App.Rule.link_count e >? 5)%Z, (App.Rule.link_count e >? 2)%Z,
    (App.Rule.ip_in_urls e iocs);
    (split; [lia|]; split; [unfold sumZ; cbn [fold_right]; lia|];
     split;
     [ repeat (constructor; [lia|]); constructor
     | intros Hd; apply Z.geb_le in Hd;
       cbn [List.filter Z.ltb Z.compare];
       destruct (0 <? p)%Z eqn:E; cbn [length];
       try lia; apply Z.ltb_ge in E; lia ]).
Qed.

(** The sample e-mail of the specification is phishing, and four parts of
    its rule score contribute. *)
Lemma rule_score_needs_two_signals_witness :
  (2 ≤ length (List.filter (fun part => (0 <? part)%Z)
                 (rule_parts Samples.bank_email Samples.bank_iocs)))%nat.
Proof.
  apply (rule_score_needs_two_signals Samples.bank_email Samples.bank_iocs).
  vm_compute. reflexivity.
Defined.

Lemma ip_in_urls_app (e : email_data) (iocs more : list indicator) :
  App.Rule.ip_in_urls e (iocs ++ more)
  = App.Rule.ip_in_urls e iocs || App.Rule.ip_in_urls e more.
Proof. unfold App.Rule.ip_in_urls. apply existsb_app. Qed.

(** X3. More indicators never lower the rule score: an e-mail that is phishing
    with some indicators stays phishing when further indicators are found. *)
Theorem more_indicators_keep_verdict (e : email_data)
    (iocs more : list indicator) :
  App.detect_phishing_simple e iocs = true →
  (App.Rule.phishing_score e iocs ≤ App.Rule.phishing_score e (iocs ++ more))%Z
  ∧ App.detect_phishing_simple e (iocs ++ more) = true.
Proof.
  intros Hd.
  assert (App.Rule.phishing_score e iocs
          ≤ App.Rule.phishing_score e (iocs ++ more))%Z as Hle.
  { unfold App.Rule.phishing_score, App.Rule.ioc_points, App.Rule.ioc_score,
      App.Rule.ip_points.
    rewrite fold_left_app, ip_in_urls_app.
    pose proof (ioc_fold_grows more (fold_left App.Rule.ioc_step iocs 0%Z)).
    destruct (App.Rule.ip_in_urls e iocs), (App.Rule.ip_in_urls e more);
      cbn [orb]; lia. }
  split; [exact Hle|].
  unfold App.detect_phishing_simple in *.
  apply Z.geb_le. apply Z.geb_le in Hd. lia.
Qed.

(** The sample e-mail stays phishing when an address is found as well. *)
Lemma more_indicators_keep_verdict_witness :
  App.detect_phishing_simple Samples.bank_email
    (Samples.bank_iocs
     ++ [ {| ioc_type := "ipv4"; ioc_value := "10.0.0.1"; severity := "medium" |} ])
  = true.
Proof.
  apply (more_indicators_keep_verdict Samples.bank_email Samples.bank_iocs
           [ {| ioc_type := "ipv4"; ioc_value := "10.0.0.1";
                severity := "medium" |} ]).
  vm_compute. reflexivity.
Defined.

(* ===================================================================== *)
(** * The upload check and the read-only endpoints *)
(* ===================================================================== *)

Lemma contains_char_nil (a : ascii) : PyStr.contains (String a "") "" = false.
Proof. reflexivity. Qed.

Lemma contains_char_cons (a c : ascii) (s : string) :
  PyStr.contains (String a "") (String c s)
  = Ascii.eqb c a || PyStr.contains (String a "") s.
Proof.
  rewrite contains_cons. f_equal. cbn [String.prefix].
  destruct (ascii_dec a c) as [->|Hne].
  - rewrite Ascii.eqb_refl. by destruct s.
  - symmetry. apply Ascii.eqb_neq. congruence.
Qed.

Lemma contains_char_append (a : ascii) (s t : string) :
  PyStr.contains (String a "") (s +:+ t)
  = PyStr.contains (String a "") s || PyStr.contains (String a "") t.
Proof.
  induction s as [|c s IH].
  - by rewrite append_nil, contains_char_nil.
  - by rewrite append_cons, !contains_char_cons, IH, orb_assoc.
Qed.

Lemma split_last_none (sep : ascii) (s : string) :
  PyText.split_last sep s = None ↔ PyStr.contains (String sep "") s = false.
Proof.
  induction s as [|c s IH]; cbn [PyText.split_last].
  - by rewrite contains_char_nil.
  - rewrite contains_char_cons, orb_false_iff, <- IH.
    destruct (PyText.split_last sep s) as [[before after]|].
    + split; [discriminate | intros [_ ?]; discriminate].
    + destruct (Ascii.eqb c sep); split; try discriminate; auto.
      intros [? _]; discriminate.
Qed.

Lemma split_last_some (sep : ascii) (s before after : string) :
  PyText.split_last sep s = Some (before, after) →
  s = before +:+ String sep after
  ∧ PyStr.contains (String sep "") after = false.
Proof.
  revert before. induction s as [|c s IH]; intros before; cbn [PyText.split_last].
  - discriminate.
  - destruct (PyText.split_last sep s) as [[b a]|] eqn:E.
    + intros [= <- <-]. destruct (IH b eq_refl) as [-> Ha].
      by rewrite append_cons.
    + destruct (Ascii.eqb c sep) eqn:Ec; [|discriminate].
      intros [= <- <-]. apply Ascii.eqb_eq in Ec as ->.
      split; [reflexivity | by apply split_last_none].
Qed.

Lemma split_last_append (sep : ascii) (before after : string) :
  PyStr.contains (String sep "") after = false →
  PyText.split_last sep (before +:+ String sep after) = Some (before, after).
Proof.
  intros Ha. induction before as [|c b IH].
  - rewrite append_nil. cbn [PyText.split_last].
    apply split_last_none in Ha. by rewrite Ha, Ascii.eqb_refl.
  - rewrite append_cons. cbn [PyText.split_last]. by rewrite IH.
Qed.

(** X4. [allowed_file] never fails, and it accepts a name exactly when the
    text after the last dot, lower-cased, is [eml] or [txt]; a name without
    a dot is refused. *)
Theorem allowed_file_last_extension (filename : string) :
  ∃ verdict, Views.allowed_file filename = Ok verdict
    ∧ (verdict = true ↔
         ∃ stem ext, filename = stem +:+ "." +:+ ext
                     ∧ PyStr.contains "." ext = false
                     ∧ (PyStr.lower ext = "eml" ∨ PyStr.lower ext = "txt")).
Proof.
  unfold Views.allowed_file, PyText.rsplit1.
  destruct (PyStr.contains "." filename) eqn:Hdot.
  - destruct (PyText.split_last "." filename) as [[stem ext]|] eqn:E.
    + eexists. split; [reflexivity|].
      apply split_last_some in E as [-> Hext].
      rewrite bool_decide_eq_true. unfold Views.ALLOWED_EXTENSIONS.
      rewrite !elem_of_cons, elem_of_nil. split.
      * intros H. exists stem, ext. split_and!; auto. tauto.
      * intros (stem' & ext' & Heq & Hext' & Hlow).
        pose proof (split_last_append "." stem ext Hext) as H1.
        pose proof (split_last_append "." stem' ext' Hext') as H2.
        change ("." +:+ ext') with (String "." ext') in Heq.
        rewrite Heq, H2 in H1. injection H1 as _ <-. tauto.
    + apply split_last_none in E. congruence.
  - exists false. split; [reflexivity|]. split; [discriminate|].
    intros (stem & ext & -> & _).
    change ("." +:+ ext) with (String "." ext) in Hdot.
    rewrite contains_char_append, contains_char_cons in Hdot.
    cbn in Hdot. by rewrite orb_true_r in Hdot.
Qed.

(** ** The breakdowns of the upload response *)

Lemma dict_get_set {V : Type} (d : list (string * V)) (k k' : string) (v : V) :
  PyDict.get (PyDict.set d k v) k'
  = if String.eqb k k' then Some v else PyDict.get d k'.
Proof.
  induction d as [|[q w] d IH]; cbn [PyDict.set PyDict.get].
  - reflexivity.
  - destruct (String.eqb q k) eqn:Eqk; cbn [PyDict.get].
    + apply String.eqb_eq in Eqk as ->. by destruct (String.eqb k k').
    + rewrite IH. destruct (String.eqb q k') eqn:Eqk'; [|reflexivity].
      apply String.eqb_eq in Eqk' as ->.
      by rewrite String.eqb_sym, Eqk.
Qed.

Lemma determine_severity_level (ty value : string) :
  IOCExtractor._determine_severity ty value ∈ severity_levels.
Proof.
  unfold IOCExtractor._determine_severity, severity_levels.
  repeat match goal with |- context [if ?b then _ else _] => destruct b end;
    set_solver.
Qed.

Lemma extract_from_email_levels (e : email_data) :
  Forall (fun i => severity i ∈ severity_levels) (IOCExtractor.extract_from_email e).
Proof.
  unfold IOCExtractor.extract_from_email.
  apply Forall_forall. intros i Hi. apply list_elem_of_In, in_flat_map in Hi.
  destruct Hi as ([ty values] & _ & Hi). apply in_map_iff in Hi as (v & <- & _).
  apply determine_severity_level.
Qed.

Lemma with_severity_cons (level : string) (i : indicator) (iocs : list indicator) :
  with_severity level (i :: iocs)
  = ((if String.eqb (severity i) level then 1 else 0) + with_severity level iocs)%Z.
Proof.
  unfold with_severity. cbn [List.filter].
  destruct (String.eqb (severity i) level); cbn [length]; lia.
Qed.

Lemma entries_of_cons (ty : string) (i : indicator) (iocs : list indicator) :
  entries_of ty (i :: iocs)
  = (if String.eqb (ioc_type i) ty then [(ioc_value i, severity i)] else [])
    ++ entries_of ty iocs.
Proof.
  unfold entries_of. cbn [List.filter].
  by destruct (String.eqb (ioc_type i) ty).
Qed.

Lemma get_some_key {V : Type} (d : list (string * V)) (k : string) (v : V) :
  PyDict.get d k = Some v → In k (PyDict.keys d).
Proof.
  induction d as [|[q w] d IH]; [discriminate|].
  cbn [PyDict.get]. cbn. destruct (String.eqb q k) eqn:E.
  - apply String.eqb_eq in E as ->. by left.
  - right. by apply IH.
Qed.

Lemma breakdown_loop_ok (iocs : list indicator)
    (ioc_breakdown : list (string * list (string * string)))
    (severity_breakdown : list (string * Z)) :
  Forall (fun i => severity i ∈ severity_levels) iocs →
  (∀ level, level ∈ severity_levels →
     is_Some (PyDict.get severity_breakdown level)) →
  ∃ ib sb,
    Views.breakdown_loop (ioc_breakdown, severity_breakdown) iocs = Ok (ib, sb)
    ∧ (∀ level, level ∈ severity_levels →
         PyDict.get sb level
         = Some (default 0%Z (PyDict.get severity_breakdown level)
                 + with_severity level iocs)%Z)
    ∧ PyDict.keys sb = PyDict.keys severity_breakdown
    ∧ (∀ ty, default [] (PyDict.get ib ty)
             = default [] (PyDict.get ioc_breakdown ty) ++ entries_of ty iocs).
Proof.
  revert ioc_breakdown severity_breakdown.
  induction iocs as [|i iocs IH]; intros ib0 sb0 Hlev Hsb.
  - exists ib0, sb0. split_and!; [reflexivity| |reflexivity|].
    + intros level Hl. destruct (Hsb level Hl) as [n Hn].
      rewrite Hn; cbn; f_equal; unfold with_severity; cbn; lia.
    + intros ty. unfold entries_of. cbn. by rewrite app_nil_r.
  - apply Forall_cons in Hlev as [Hi Hlev].
    destruct (Hsb _ Hi) as [n Hn].
    cbn [Views.breakdown_loop]. unfold Views.breakdown_step.
    set (ib1 := match PyDict.get ib0 (ioc_type i) with
                | Some _ => ib0
                | None => PyDict.set ib0 (ioc_type i) []
                end).
    assert (PyDict.get ib1 (ioc_type i)
            = Some (default [] (PyDict.get ib0 (ioc_type i)))) as Hib1.
    { unfold ib1. destruct (PyDict.get ib0 (ioc_type i)) eqn:E; [by rewrite E|].
      by rewrite dict_get_set, String.eqb_refl. }
    assert (∀ ty, default [] (PyDict.get ib1 ty) = default [] (PyDict.get ib0 ty))
      as Hib1'.
    { intros ty. unfold ib1. destruct (PyDict.get ib0 (ioc_type i)) eqn:E;
        [reflexivity|].
      rewrite dict_get_set. destruct (String.eqb (ioc_type i) ty) eqn:Et;
        [|reflexivity].
      apply String.eqb_eq in Et as <-. by rewrite E. }
    rewrite (item_present _ _ _ Hib1). cbn [mbind result_bind].
    rewrite (item_present _ _ _ Hn). cbn [mbind result_bind].
    edestruct (IH (PyDict.set ib1 (ioc_type i)
                     (default [] (PyDict.get ib0 (ioc_type i))
                      ++ [(ioc_value i, severity i)]))
                  (PyDict.set sb0 (severity i) (n + 1)%Z) Hlev)
      as (ib & sb & Hloop & Hsev & Hkeys & Hty).
    { intros level Hl. rewrite dict_get_set.
      destruct (String.eqb (severity i) level); [eauto | by apply Hsb]. }
    exists ib, sb. split_and!; [exact Hloop| | |].
    + intros level Hl. rewrite (Hsev level Hl), dict_get_set, with_severity_cons.
      destruct (String.eqb (severity i) level) eqn:El.
      * apply String.eqb_eq in El as <-. rewrite Hn; cbn; f_equal; lia.
      * destruct (Hsb level Hl) as [m Hm]. rewrite Hm; cbn; f_equal; lia.
    + rewrite Hkeys, keys_set. unfold IOCExtractor.add_key.
      assert (existsb (String.eqb (severity i)) (PyDict.keys sb0) = true) as ->;
        [|reflexivity].
      apply existsb_exists. exists (severity i). rewrite String.eqb_refl.
      split; [|reflexivity]. by eapply get_some_key.
    + intros ty. rewrite Hty, dict_get_set, entries_of_cons.
      destruct (String.eqb (ioc_type i) ty) eqn:Et.
      * apply String.eqb_eq in Et as <-. cbn. by rewrite <- app_assoc.
      * by rewrite Hib1'.
Qed.

(** X5. The loop that prepares the upload response never fails on the
    indicators the extractor returns: every severity it assigns is a key of
    [severity_breakdown].  The three counters are the numbers of indicators
    of each severity and add up to the number of indicators, and every type
    lists the value and severity of its indicators in the order found. *)
Theorem upload_breakdowns_add_up (e : email_data) :
  let extracted_iocs := IOCExtractor.extract_from_email e in
  ∃ ioc_breakdown severity_breakdown,
    Views.breakdowns extracted_iocs = Ok (ioc_breakdown, severity_breakdown)
    ∧ PyDict.keys severity_breakdown = ["low"; "medium"; "high"]
    ∧ PyDict.get severity_breakdown "low"
      = Some (with_severity "low" extracted_iocs)
    ∧ PyDict.get severity_breakdown "medium"
      = Some (with_severity "medium" extracted_iocs)
    ∧ PyDict.get severity_breakdown "high"
      = Some (with_severity "high" extracted_iocs)
    ∧ (with_severity "low" extracted_iocs
       + with_severity "medium" extracted_iocs
       + with_severity "high" extracted_iocs
       = Z.of_nat (length extracted_iocs))%Z
    ∧ (∀ ty, default [] (PyDict.get ioc_breakdown ty)
             = entries_of ty extracted_iocs).
Proof.
  intros iocs. pose proof (extract_from_email_levels e) as Hlev. fold iocs in Hlev.
  destruct (breakdown_loop_ok iocs []
              [("low", 0%Z); ("medium", 0%Z); ("high", 0%Z)] Hlev)
    as (ib & sb & Hloop & Hsev & Hkeys & Hty).
  { intros level Hl. unfold severity_levels in Hl.
    rewrite !elem_of_cons, elem_of_nil in Hl.
    destruct Hl as [->| [->| [->|[]]]]; cbn; eauto. }
  exists ib, sb. unfold Views.breakdowns.
  split_and!; [exact Hloop | exact Hkeys | | | | | exact Hty].
  - rewrite Hsev by (unfold severity_levels; set_solver); cbn; f_equal; lia.
  - rewrite Hsev by (unfold severity_levels; set_solver); cbn; f_equal; lia.
  - rewrite Hsev by (unfold severity_levels; set_solver); cbn; f_equal; lia.
  - clear -Hlev. induction Hlev as [|i iocs Hi _ IH]; [reflexivity|].
    rewrite !with_severity_cons. cbn [length].
    unfold severity_levels in Hi. rewrite !elem_of_cons, elem_of_nil in Hi.
    destruct Hi as [->| [->| [->|[]]]]; cbn; lia.
Qed.

(** ** The timeline *)

Lemma sum_set {V : Type} (f : V → Z) (d : list (string * V)) (k : string) (v : V) :
  sumZ (map (fun kv => f (snd kv)) (PyDict.set d k v))
  = (sumZ (map (fun kv => f (snd kv)) d)
     - default 0%Z (f <$> PyDict.get d k) + f v)%Z.
Proof.
  induction d as [|[q w] d IH]; cbn [PyDict.set PyDict.get].
  - cbn. lia.
  - destruct (String.eqb q k); cbn [map sumZ fold_right snd fmap option_fmap option_map default];
      unfold id.
    + fold (sumZ (map (fun kv => f (snd kv)) d)). lia.
    + fold (sumZ (map (fun kv => f (snd kv)) (PyDict.set d k v))).
      fold (sumZ (map (fun kv => f (snd kv)) d)). rewrite IH.
      destruct (PyDict.get d k); cbn; lia.
Qed.

Lemma Forall_set {V : Type} (P : string * V → Prop) (d : list (string * V))
    (k : string) (v : V) :
  Forall P d → P (k, v) → Forall P (PyDict.set d k v).
Proof.
  intros Hd Hv. induction Hd as [|[q w] d Hq Hd IH]; cbn [PyDict.set].
  - by constructor.
  - destruct (String.eqb q k); by constructor.
Qed.

Lemma get_Forall {V : Type} (P : string * V → Prop) (d : list (string * V))
    (k : string) (v : V) :
  Forall P d → PyDict.get d k = Some v → P (k, v).
Proof.
  intros Hd. induction Hd as [|[q w] d Hq Hd IH]; cbn [PyDict.get]; [discriminate|].
  destruct (String.eqb q k) eqn:E; [|exact IH].
  apply String.eqb_eq in E as ->. by intros [= <-].
Qed.

Lemma add_key_NoDup (keys : list string) (k : string) :
  NoDup keys → NoDup (IOCExtractor.add_key keys k).
Proof.
  intros Hk. unfold IOCExtractor.add_key.
  destruct (existsb (String.eqb k) keys) eqn:E; [exact Hk|].
  apply NoDup_app. split_and!; [exact Hk | | apply NoDup_singleton].
  intros x Hx Hx'. apply list_elem_of_singleton in Hx' as ->.
  assert (existsb (String.eqb k) keys = true); [|congruence].
  apply existsb_exists. exists k. rewrite String.eqb_refl.
  split; [by apply list_elem_of_In | reflexivity].
Qed.

Lemma set_set {V : Type} (d : list (string * V)) (k : string) (v v' : V) :
  PyDict.set (PyDict.set d k v) k v' = PyDict.set d k v'.
Proof.
  induction d as [|[q w] d IH]; cbn [PyDict.set].
  - by rewrite String.eqb_refl.
  - destruct (String.eqb q k) eqn:E; cbn [PyDict.set].
    + by rewrite String.eqb_refl.
    + by rewrite E, IH.
Qed.

Lemma timeline_step_eq (timeline : list (string * Views.day)) (date_key : string)
    (is_phishing : option bool) :
  Views.timeline_step timeline date_key is_phishing
  = Ok (PyDict.set timeline date_key
          (counted is_phishing
             (default (empty_day date_key) (PyDict.get timeline date_key)))).
Proof.
  unfold Views.timeline_step.
  destruct (PyDict.get timeline date_key) as [d|] eqn:E.
  - rewrite (item_present _ _ _ E). cbn [mbind result_bind default].
    unfold counted. by destruct (default false is_phishing); cbn;
      rewrite ?Z.add_0_r.
  - erewrite item_present by (by rewrite dict_get_set, String.eqb_refl).
    cbn [mbind result_bind default]. rewrite set_set.
    unfold counted, empty_day. by destruct (default false is_phishing); cbn.
Qed.

Lemma timeline_loop_ok (strftime_day : Z → string) (emails : list Db.Email)
    (timeline : list (string * Views.day)) :
  Forall (fun email => is_Some (Db.upload_date email)) emails →
  Forall entry_consistent timeline → NoDup (PyDict.keys timeline) →
  ∃ timeline',
    Views.timeline_loop strftime_day timeline emails = Ok timeline'
    ∧ Forall entry_consistent timeline'
    ∧ NoDup (PyDict.keys timeline')
    ∧ sumZ (map (fun kv => Views.total (snd kv)) timeline')
      = (sumZ (map (fun kv => Views.total (snd kv)) timeline)
         + Z.of_nat (length emails))%Z
    ∧ sumZ (map (fun kv => Views.phishing (snd kv)) timeline')
      = (sumZ (map (fun kv => Views.phishing (snd kv)) timeline)
         + marked_phishing emails)%Z.
Proof.
  intros Hdates. revert timeline.
  induction Hdates as [|email emails [t Ht] _ IH]; intros timeline Hall Hkeys.
  - exists timeline. unfold marked_phishing. cbn.
    split_and!; auto; lia.
  - cbn [Views.timeline_loop]. rewrite Ht, timeline_step_eq.
    cbn [mbind result_bind].
    set (k := strftime_day t).
    set (d := counted (Db.is_phishing email)
                (default (empty_day k) (PyDict.get timeline k))).
    assert (entry_consistent (k, d)) as Hd.
    { unfold d. destruct (PyDict.get timeline k) as [d0|] eqn:E; cbn [default].
      - pose proof (get_Forall _ _ _ _ Hall E) as (Hk & Hpos & Hp & Hl & Hsum).
        cbn [fst snd] in *. split; [exact Hk|].
        unfold day_consistent, counted; cbn.
        destruct (default false (Db.is_phishing email)); lia.
      - split; [reflexivity|]. unfold day_consistent, counted, empty_day; cbn.
        destruct (default false (Db.is_phishing email)); lia. }
    destruct (IH (PyDict.set timeline k d)) as (t' & Hloop & Hall' & Hkeys' & Htot & Hph).
    { by apply Forall_set. }
    { rewrite keys_set. by apply add_key_NoDup. }
    exists t'. split_and!; auto.
    + rewrite Htot, (sum_set Views.total). cbn [length].
      unfold d. destruct (PyDict.get timeline k);
        cbn [default fmap option_fmap option_map counted empty_day
               Views.total]; unfold id; lia.
    + rewrite Hph, (sum_set Views.phishing).
      unfold marked_phishing. cbn [List.filter].
      unfold d. destruct (PyDict.get timeline k);
        destruct (Db.is_phishing email) as [[]|];
        cbn [default from_option fmap option_fmap option_map counted empty_day
               Views.phishing]; unfold id; simpl length; lia.
Qed.

(** X6. Over the e-mails uploaded since a date, in whatever order the query
    returns them, the timeline is built without error.  Its days have
    distinct dates, none is empty, [total] is [phishing] plus [legitimate] on
    every day, the totals add up to the number of e-mails and the phishing
    counters to the number of e-mails marked as phishing. *)
Theorem timeline_days_add_up (strftime_day : Z → string) (since : Z)
    (stored emails : list Db.Email) :
  Permutation emails (Views.uploaded_since since stored) →
  ∃ days,
    Views.timeline_of strftime_day emails = Ok days
    ∧ NoDup (map Views.date days)
    ∧ Forall day_consistent days
    ∧ sumZ (map Views.total days) = Z.of_nat (length emails)
    ∧ sumZ (map Views.phishing days) = marked_phishing emails.
Proof.
  intros Hperm.
  assert (Forall (fun email => is_Some (Db.upload_date email)) emails) as Hdates.
  { apply Forall_forall. intros email Hin.
    rewrite Hperm in Hin. unfold Views.uploaded_since in Hin.
    apply list_elem_of_In, filter_In in Hin as [_ Hin].
    destruct (Db.upload_date email); [eauto | discriminate]. }
  destruct (timeline_loop_ok strftime_day emails [] Hdates)
    as (t & Hloop & Hall & Hkeys & Htot & Hph);
    [constructor | constructor |].
  exists (map snd t). unfold Views.timeline_of. rewrite Hloop.
  split_and!; [reflexivity | | | |].
  - assert (map Views.date (map snd t) = PyDict.keys t) as ->; [|exact Hkeys].
    unfold PyDict.keys. rewrite map_map. apply map_ext_Forall.
    eapply Forall_impl; [exact Hall|]. by intros kd [Hk _].
  - apply Forall_map. eapply Forall_impl; [exact Hall|]. by intros kd [_ Hd].
  - rewrite map_map, Htot. cbn. lia.
  - rewrite map_map, Hph. cbn. lia.
Qed.

(** Two stored e-mails of one day, one of them older than the window. *)
Lemma timeline_days_add_up_witness :
  ∃ days,
    Views.timeline_of (fun t => if (t <? 200)%Z then "2024-01-01" else "2024-01-02")
      [ {| Db.id := 2; Db.upload_date := Some 150%Z; Db.is_phishing := Some true;
           Db.sender := None; Db.subject := None; Db.body := None |};
        {| Db.id := 3; Db.upload_date := Some 160%Z; Db.is_phishing := None;
           Db.sender := None; Db.subject := None; Db.body := None |} ]
    = Ok days
    ∧ NoDup (map Views.date days)
    ∧ Forall day_consistent days
    ∧ sumZ (map Views.total days) = 2%Z
    ∧ sumZ (map Views.phishing days) = 1%Z.
Proof.
  apply (timeline_days_add_up
           (fun t => if (t <? 200)%Z then "2024-01-01" else "2024-01-02") 100
           [ {| Db.id := 1; Db.upload_date := Some 50%Z; Db.is_phishing := Some true;
                Db.sender := None; Db.subject := None; Db.body := None |};
             {| Db.id := 2; Db.upload_date := Some 150%Z; Db.is_phishing := Some true;
                Db.sender := None; Db.subject := None; Db.body := None |};
             {| Db.id := 3; Db.upload_date := Some 160%Z; Db.is_phishing := None;
                Db.sender := None; Db.subject := None; Db.body := None |} ]).
  vm_compute. reflexivity.
Defined.

(** ** Pagination *)

Lemma firstn_skipn_add {A : Type} (a b : nat) (l : list A) :
  firstn a l ++ firstn b (skipn a l) = firstn (a + b) l.
Proof.
  revert l. induction a as [|a IH]; intros [|x l]; cbn; try reflexivity.
  - by rewrite firstn_nil.
  - by rewrite IH.
Qed.

Lemma chunks_concat {A : Type} (n k : nat) (l : list A) :
  flat_map (fun i => firstn n (skipn (i * n) l)) (seq 0 k) = firstn (k * n) l.
Proof.
  induction k as [|k IH].
  - reflexivity.
  - rewrite seq_S, flat_map_app, IH. cbn [flat_map]. rewrite app_nil_r.
    rewrite firstn_skipn_add. f_equal. lia.
Qed.

Lemma flat_map_seq_shift {A : Type} (f : nat → list A) (a k : nat) :
  flat_map f (seq (S a) k) = flat_map (fun i => f (S i)) (seq a k).
Proof.
  revert a. induction k as [|k IH]; intros a; [reflexivity|].
  cbn [seq flat_map]. by rewrite IH.
Qed.

Lemma items_at_slice {A : Type} (rows : list A) (per_page : Z) (page : nat) :
  (1 ≤ per_page)%Z →
  items_at rows per_page (S page)
  = firstn (Z.to_nat per_page) (skipn (page * Z.to_nat per_page) rows).
Proof.
  intros Hpp. unfold items_at, Views.get_iocs_page, Views.py_floordiv.
  destruct (per_page =? 0)%Z eqn:E; [lia|]. cbn [mbind result_bind Views.page_items].
  do 2 f_equal. lia.
Qed.

(** X7. With at least one row per page, [get_iocs] answers every page request
    from the first page on.  [pages] is the least number of pages that hold
    all rows, a page has at most [per_page] items and has items exactly when
    its number is at most [pages], and the pages from 1 to [pages], one after
    the other, are the rows of the query: no row is skipped or repeated. *)
Theorem get_iocs_pages_cover_rows {A : Type} (rows : list A) (page per_page : Z) :
  (1 ≤ per_page)%Z → (1 ≤ page)%Z →
  ∃ r,
    Views.get_iocs_page rows page per_page = Ok r
    ∧ Views.page_total r = Z.of_nat (length rows)
    ∧ ((Views.page_count r - 1) * per_page < Z.of_nat (length rows)
       ≤ Views.page_count r * per_page)%Z
    ∧ (Z.of_nat (length (Views.page_items r)) ≤ per_page)%Z
    ∧ (Views.page_items r ≠ [] ↔ (page ≤ Views.page_count r)%Z)
    ∧ flat_map (items_at rows per_page) (seq 1 (Z.to_nat (Views.page_count r)))
      = rows.
Proof.
  intros Hpp Hpage. unfold Views.get_iocs_page, Views.py_floordiv.
  destruct (per_page =? 0)%Z eqn:E; [lia|]. clear E.
  eexists. split; [reflexivity|].
  cbn [Views.page_total Views.page_count Views.page_items].
  set (total := Z.of_nat (length rows)).
  set (pages := ((total + per_page - 1) / per_page)%Z).
  assert ((pages - 1) * per_page < total ≤ pages * per_page)%Z as Hpages.
  { unfold pages.
    pose proof (Z.mul_div_le (total + per_page - 1) per_page ltac:(lia)).
    pose proof (Z.mul_succ_div_gt (total + per_page - 1) per_page ltac:(lia)).
    nia. }
  assert (0 ≤ pages)%Z as Hp0 by (unfold total in *; nia).
  refine (conj eq_refl (conj Hpages (conj _ (conj _ _)))).
  - rewrite length_firstn. lia.
  - rewrite <- length_zero_iff_nil, length_firstn, length_skipn.
    unfold total in *. split; intros H.
    + assert (Z.to_nat ((page - 1) * per_page) < length rows)%nat by lia. nia.
    + assert (Z.to_nat ((page - 1) * per_page) < length rows)%nat by nia. lia.
  - rewrite flat_map_seq_shift.
    erewrite flat_map_ext; [rewrite (chunks_concat (Z.to_nat per_page))|].
    + apply firstn_all2. unfold total in *. nia.
    + intros i. cbn. by apply items_at_slice.
Qed.

(** Seven rows in pages of three: the third page holds the last row. *)
Lemma get_iocs_pages_cover_rows_witness :
  ∃ r,
    Views.get_iocs_page [1; 2; 3; 4; 5; 6; 7]%Z 3 3 = Ok r
    ∧ Views.page_total r = 7%Z
    ∧ ((Views.page_count r - 1) * 3 < 7 ≤ Views.page_count r * 3)%Z
    ∧ (Z.of_nat (length (Views.page_items r)) ≤ 3)%Z
    ∧ (Views.page_items r ≠ [] ↔ (3 ≤ Views.page_count r)%Z)
    ∧ flat_map (items_at [1; 2; 3; 4; 5; 6; 7]%Z 3)
        (seq 1 (Z.to_nat (Views.page_count r)))
      = [1; 2; 3; 4; 5; 6; 7]%Z.
Proof.
  apply (get_iocs_pages_cover_rows [1; 2; 3; 4; 5; 6; 7]%Z 3 3); lia.
Defined.

(* ===================================================================== *)
(** * Defanged URLs *)
(* ===================================================================== *)

Lemma replace_from_skip (old new : string) (n : nat) (s : string) :
  PyText.replace_from old new n s = PyText.replace_from old new 0 (drop_chars n s).
Proof.
  revert s. induction n as [|n IH]; intros [|c s]; cbn [drop_chars];
    try reflexivity.
  cbn [PyText.replace_from]. apply IH.
Qed.

Lemma drop_chars_length (n : nat) (s : string) :
  (String.length (drop_chars n s) ≤ String.length s)%nat.
Proof.
  revert s. induction n as [|n IH]; intros [|c s]; cbn; try lia.
  specialize (IH s). lia.
Qed.

Lemma drop_chars_add (n m : nat) (s : string) :
  drop_chars n (drop_chars m s) = drop_chars (m + n) s.
Proof.
  revert s. induction m as [|m IH]; intros s; [reflexivity|].
  destruct s as [|c s]; cbn [Nat.add drop_chars]; [by destruct n|apply IH].
Qed.

Lemma prefix_cons (a b : ascii) (p s : string) :
  String.prefix (String a p) (String b s) = Ascii.eqb a b && String.prefix p s.
Proof.
  cbn [String.prefix]. destruct (ascii_dec a b) as [->|Hne].
  - by rewrite Ascii.eqb_refl.
  - apply Ascii.eqb_neq in Hne. by rewrite Hne.
Qed.

Lemma agree_prefix (p y rest : string) :
  agree p y = false → String.prefix p (y +:+ rest) = false.
Proof.
  revert y. induction p as [|a p IH]; intros [|b y]; cbn [agree]; try discriminate.
  rewrite append_cons, prefix_cons. intros H.
  destruct (Ascii.eqb a b); cbn [andb] in *; [by apply IH | reflexivity].
Qed.

Lemma not_begun_in_tail (p : string) (c : ascii) (y : string) :
  (∀ i, (i < String.length (String c y))%nat →
        agree p (drop_chars i (String c y)) = false) →
  ∀ i, (i < String.length y)%nat → agree p (drop_chars i y) = false.
Proof. intros H i Hi. apply (H (S i)). cbn. lia. Qed.

Lemma contains_past (p y rest : string) :
  (∀ i, (i < String.length y)%nat → agree p (drop_chars i y) = false) →
  PyStr.contains p (y +:+ rest) = PyStr.contains p rest.
Proof.
  induction y as [|c y IH]; intros H.
  - by rewrite append_nil.
  - rewrite append_cons, contains_cons, <- append_cons.
    rewrite (agree_prefix p (String c y) rest) by (apply (H 0%nat); cbn; lia).
    apply IH. by eapply not_begun_in_tail.
Qed.

Lemma prefix_replaced (old new p s : string) :
  (∀ j, (j < String.length p)%nat → agree (drop_chars j p) new = false) →
  String.prefix p (PyText.replace_from old new 0 s) = true →
  String.prefix p s = true.
Proof.
  revert s. induction p as [|a p IH]; intros s H; [by destruct s|].
  destruct s as [|c s]; cbn [PyText.replace_from]; [discriminate|].
  destruct (String.prefix old (String c s)).
  - rewrite agree_prefix; [discriminate|]. apply (H 0%nat). cbn. lia.
  - rewrite !prefix_cons. intros [-> Hp]%andb_true_iff. cbn [andb].
    apply IH; [|exact Hp]. intros j Hj. apply (H (S j)). cbn. lia.
Qed.

Lemma forallb_seq (f : nat → bool) (n : nat) :
  forallb f (seq 0 n) = true → ∀ i, (i < n)%nat → f i = true.
Proof.
  rewrite forallb_forall. intros H i Hi. apply H, in_seq. lia.
Qed.

(** Where [p] is non-empty, cannot begin inside a copy of [new] nor have a
    copy of [new] begin inside it, and occurs in [s] only where [old]
    occurs, replacing [old] by [new] leaves no occurrence of [p]. *)
Lemma replace_from_avoids (old new p : string) (s : string) :
  p ≠ "" →
  not_begun_in p new = true → not_begun_by p new = true →
  (∀ n, String.prefix p (drop_chars n s) = true →
        String.prefix old (drop_chars n s) = true) →
  PyStr.contains p (PyText.replace_from old new 0 s) = false.
Proof.
  intros Hp Hin Hby.
  pose proof (forallb_seq _ _ Hin) as Hin'.
  pose proof (forallb_seq _ _ Hby) as Hby'.
  assert (∀ i, (i < String.length new)%nat → agree p (drop_chars i new) = false)
    as HC by (intros i Hi; by apply negb_true_iff, Hin').
  assert (∀ j, (j < String.length p)%nat → agree (drop_chars j p) new = false)
    as HA by (intros j Hj; by apply negb_true_iff, Hby').
  clear Hin Hby Hin' Hby'.
  remember (String.length s) as n eqn:Hn.
  assert (String.length s ≤ n)%nat as Hlen by lia. clear Hn.
  revert s Hlen. induction n as [|n IH]; intros s Hlen Hocc.
  - destruct s; [|cbn in Hlen; lia]. cbn [PyText.replace_from].
    rewrite contains_nil, orb_false_r. by destruct p.
  - destruct s as [|c s].
    { cbn [PyText.replace_from]. rewrite contains_nil, orb_false_r.
      by destruct p. }
    cbn [String.length] in Hlen.
    pose proof (prefix_replaced old new p (String c s) HA) as Hfirst.
    cbn [PyText.replace_from] in *.
    destruct (String.prefix old (String c s)) eqn:Hold.
    + rewrite (contains_past p new _ HC), replace_from_skip.
      apply IH.
      * pose proof (drop_chars_length (String.length old - 1) s). lia.
      * intros m. rewrite drop_chars_add.
        apply (Hocc (S (String.length old - 1 + m))).
    + rewrite contains_cons, orb_false_iff. split.
      * destruct (String.prefix p (String c (PyText.replace_from old new 0 s)))
          eqn:E; [|reflexivity].
        specialize (Hfirst eq_refl). apply (Hocc 0%nat) in Hfirst.
        cbn [drop_chars] in Hfirst. congruence.
      * apply IH; [lia|]. intros m. apply (Hocc (S m)).
Qed.

Lemma contains_drop (p : string) (n : nat) (s : string) :
  String.prefix p (drop_chars n s) = true → PyStr.contains p s = true.
Proof.
  revert s. induction n as [|n IH]; intros s.
  - cbn [drop_chars]. intros H. destruct s; [by rewrite contains_nil, H|].
    by rewrite contains_cons, H.
  - destruct s as [|c s]; cbn [drop_chars].
    + intros H. by rewrite contains_nil, H.
    + intros H. rewrite contains_cons, (IH s H). apply orb_true_r.
Qed.

(** Replacing a non-empty [old] removes every occurrence of it ... *)
Lemma replace_removes (s old new : string) :
  old ≠ "" →
  not_begun_in old new = true → not_begun_by old new = true →
  PyStr.contains old (PyText.replace s old new) = false.
Proof.
  intros Hold Hin Hby. unfold PyText.replace.
  destruct old as [|a old]; [done|].
  by apply replace_from_avoids.
Qed.

(** ... and brings in no occurrence of a text it cannot overlap. *)
Lemma replace_keeps_out (s old new p : string) :
  old ≠ "" → p ≠ "" →
  not_begun_in p new = true → not_begun_by p new = true →
  PyStr.contains p s = false →
  PyStr.contains p (PyText.replace s old new) = false.
Proof.
  intros Hold Hp Hin Hby Hs. unfold PyText.replace.
  destruct old as [|a old]; [done|].
  apply replace_from_avoids; auto.
  intros n Hn. apply contains_drop in Hn. congruence.
Qed.

Lemma replace_dot (s : string) : PyText.replace s "." "[.]" = bracket_dots s.
Proof.
  unfold PyText.replace.
  induction s as [|c s IH]; [reflexivity|].
  cbn [PyText.replace_from bracket_dots String.length Nat.sub].
  rewrite IH. change (String.prefix "." (String c s)) with
    (if ascii_dec "." c then String.prefix "" s else false).
  destruct (ascii_dec "." c) as [<-|Hne].
  - by destruct s.
  - destruct (Ascii.eqb c ".") eqn:E; [|reflexivity].
    apply Ascii.eqb_eq in E. congruence.
Qed.

Lemma bracket_dots_bracketed (s : string) : dots_bracketed (bracket_dots s).
Proof.
  unfold dots_bracketed.
  induction s as [|c s IH]; intros pre post; cbn [bracket_dots].
  - destruct pre; discriminate.
  - change ("." +:+ post) with (String "." post).
    destruct (Ascii.eqb c ".") eqn:E.
    + destruct pre as [|p1 [|p2 [|p3 pre]]]; rewrite ?append_cons, ?append_nil;
        intros [= H1 H2 H3 H4] || intros [= H1 H2 H3] || intros [= H1 H2]
        || intros [= H1]; subst; try discriminate.
      * split; [by exists "" | by eexists].
      * destruct (IH pre post H4) as [[pre' ->] Hpost].
        split; [|exact Hpost]. by exists (String "[" (String "." (String "]" pre'))).
    + destruct pre as [|p1 pre]; rewrite ?append_cons, ?append_nil.
      * intros [= -> _]. discriminate.
      * intros [= <- H]. destruct (IH pre post H) as [[pre' ->] Hpost].
        split; [|exact Hpost]. by exists (String c pre').
Qed.

(** X8. A defanged URL contains neither of the two schemes, and each of its
    dots stands between brackets. *)
Theorem defang_url_leaves_no_link (url : string) :
  PyStr.contains "http://" (Defang.defang_url url) = false
  ∧ PyStr.contains "https://" (Defang.defang_url url) = false
  ∧ dots_bracketed (Defang.defang_url url).
Proof.
  unfold Defang.defang_url.
  set (s1 := PyText.replace url "http://" "hxxp://").
  set (s2 := PyText.replace s1 "https://" "hxxps://").
  assert (PyStr.contains "http://" s1 = false) as H1
    by (by apply replace_removes).
  assert (PyStr.contains "http://" s2 = false) as H2
    by (by apply replace_keeps_out).
  assert (PyStr.contains "https://" s2 = false) as H3
    by (by apply replace_removes).
  split_and!.
  - by apply replace_keeps_out.
  - by apply replace_keeps_out.
  - rewrite replace_dot. apply bracket_dots_bracketed.
Qed.

(* ===================================================================== *)
(** * The list of indicators of an e-mail *)
(* ===================================================================== *)

Lemma sublist_elem (l k : list string) (x : string) :
  sublist l k → x ∈ l → x ∈ k.
Proof.
  induction 1 as [|y l k _ IH|y l k _ IH]; [done| |].
  - rewrite !elem_of_cons. intros [->|Hx]; auto.
  - intros Hx. apply elem_of_cons. right. auto.
Qed.

Lemma sublist_strongly_sorted (R : string → string → Prop) (l k : list string) :
  sublist l k → StronglySorted R k → StronglySorted R l.
Proof.
  induction 1 as [|y l k Hs IH|y l k Hs IH]; [done| |].
  - rewrite !StronglySorted_cons. intros [Hy Hk]. split; [|auto].
    apply Forall_forall. intros x Hx. rewrite Forall_forall in Hy.
    apply Hy. by eapply sublist_elem.
  - rewrite StronglySorted_cons. intros [_ Hk]. auto.
Qed.

Lemma pattern_keys_ranked :
  StronglySorted (fun a b => (type_rank a < type_rank b)%nat)
    (map fst IOCExtractor.patterns).
Proof.
  apply (bool_decide_unpack _). vm_compute. reflexivity.
Qed.

Lemma extract_with_values_NoDup (pats : list (string * Re.regex)) (text : string) :
  Forall (fun kv => NoDup (snd kv)) (IOCExtractor.extract_with pats text).
Proof.
  induction pats as [|[ty pat] pats IH]; cbn [IOCExtractor.extract_with].
  - constructor.
  - pose proof (fromkeys_NoDup (Re.findall true pat text)) as Hnd.
    destruct (IOCExtractor.fromkeys (Re.findall true pat text)); [exact IH|].
    by constructor.
Qed.

Lemma listed_cons (ty : string) (values : list string)
    (d : list (string * list string)) :
  listed ((ty, values) :: d)
  = map (fun value =>
           {| ioc_type := ty; ioc_value := value;
              severity := IOCExtractor._determine_severity ty value |}) values
    ++ listed d.
Proof. reflexivity. Qed.

Lemma listed_types (d : list (string * list string)) (i : indicator) :
  i ∈ listed d →
  ioc_type i ∈ PyDict.keys d
  ∧ severity i = IOCExtractor._determine_severity (ioc_type i) (ioc_value i).
Proof.
  induction d as [|[ty values] d IH].
  - intros Hi. by apply elem_of_nil in Hi.
  - rewrite listed_cons, elem_of_app. intros [Hi|Hi].
    + apply list_elem_of_fmap in Hi as (v & -> & _). cbn.
      split; [apply elem_of_cons; by left | reflexivity].
    + destruct (IH Hi) as [Hk Hs]. split; [|exact Hs].
      cbn. apply elem_of_cons. by right.
Qed.

Lemma listed_NoDup (d : list (string * list string)) :
  NoDup (PyDict.keys d) → Forall (fun kv => NoDup (snd kv)) d →
  NoDup (map (fun i => (ioc_type i, ioc_value i)) (listed d)).
Proof.
  induction d as [|[ty values] d IH]; intros Hk Hv.
  - constructor.
  - cbn in Hk. apply NoDup_cons in Hk as [Hty Hk].
    apply Forall_cons in Hv as [Hvalues Hv]. cbn [snd] in Hvalues.
    rewrite listed_cons, map_app, map_map. cbn [ioc_type ioc_value].
    apply NoDup_app. split_and!.
    + apply (NoDup_fmap_2_strong (fun value => (ty, value)));
        [by intros v1 v2 _ _ [= ->] | exact Hvalues].
    + intros [ty' v] H1 H2.
      apply list_elem_of_fmap in H1 as (v1 & [= -> ->] & _).
      apply list_elem_of_fmap in H2 as (i & [= Hi1 Hi2] & Hi).
      apply listed_types in Hi as [Hi _]. apply Hty. by rewrite Hi1.
    + by apply IH.
Qed.

Lemma listed_ordered (d : list (string * list string)) :
  StronglySorted (fun a b => (type_rank a < type_rank b)%nat) (PyDict.keys d) →
  StronglySorted by_pattern_order (listed d).
Proof.
  induction d as [|[ty values] d IH]; intros Hk.
  - constructor.
  - cbn in Hk. apply StronglySorted_cons in Hk as [Hty Hk].
    rewrite listed_cons. apply StronglySorted_app. split_and!.
    + intros i j Hi Hj. apply list_elem_of_fmap in Hi as (v & -> & _).
      apply listed_types in Hj as [Hj _]. rewrite Forall_forall in Hty.
      unfold by_pattern_order. cbn. specialize (Hty _ Hj). lia.
    + induction values as [|v values IHv]; [constructor|].
      cbn [map]. apply StronglySorted_cons. split; [|exact IHv].
      apply Forall_forall. intros j Hj.
      apply list_elem_of_fmap in Hj as (v' & -> & _).
      unfold by_pattern_order. cbn. lia.
    + by apply IH.
Qed.

(** X9. The indicators of an e-mail come grouped by type in the order of the
    extractor's patterns, no type and value occurs twice, every type is one
    of the seven the extractor knows, and every severity is the one
    [_determine_severity] gives for the type and value and is one of [low],
    [medium] and [high]. *)
Theorem extract_from_email_grouped (e : email_data) :
  let iocs := IOCExtractor.extract_from_email e in
  NoDup (map (fun i => (ioc_type i, ioc_value i)) iocs)
  ∧ StronglySorted by_pattern_order iocs
  ∧ Forall (fun i =>
              ioc_type i ∈ ["ipv4"; "url"; "email"; "domain"; "md5"; "sha1"; "sha256"]
              ∧ severity i
                = IOCExtractor._determine_severity (ioc_type i) (ioc_value i)
              ∧ severity i ∈ ["low"; "medium"; "high"]) iocs.
Proof.
  intros iocs. unfold iocs. rewrite extract_from_email_listed.
  set (d := IOCExtractor.extract_iocs (IOCExtractor.combined_text e)).
  pose proof (extract_with_keys_sublist IOCExtractor.patterns
                (IOCExtractor.combined_text e)) as Hsub.
  fold (IOCExtractor.extract_iocs (IOCExtractor.combined_text e)) in Hsub.
  fold d in Hsub.
  split_and!.
  - apply listed_NoDup; [apply extract_iocs_keys_NoDup|].
    apply extract_with_values_NoDup.
  - apply listed_ordered.
    eapply sublist_strongly_sorted; [exact Hsub | apply pattern_keys_ranked].
  - apply Forall_forall. intros i Hi. apply listed_types in Hi as [Hk Hs].
    split_and!; [|exact Hs|].
    + by apply (sublist_elem _ _ _ Hsub).
    + rewrite Hs. apply determine_severity_level.
Qed.

(* ===================================================================== *)
(** * Keyword and text features *)
(* ===================================================================== *)

Lemma count_from_nonneg (sub : string) (skip : nat) (s : string) :
  (0 ≤ PyStr.count_from sub skip s)%Z.
Proof.
  revert skip. induction s as [|c s IH]; intros skip; cbn [PyStr.count_from].
  - lia.
  - destruct skip as [|n]; [|apply IH].
    destruct (String.prefix sub (String c s)); [|apply IH].
    specialize (IH (String.length sub - 1)%nat). lia.
Qed.

(** A non-empty text is counted at least once exactly where it occurs. *)
Lemma count_positive (sub s : string) :
  sub ≠ "" → (0 <? PyStr.count s sub)%Z = PyStr.contains sub s.
Proof.
  intros Hsub. unfold PyStr.count.
  induction s as [|c s IH].
  - cbn [PyStr.count_from]. rewrite contains_nil, orb_false_r.
    by destruct sub.
  - cbn [PyStr.count_from]. rewrite contains_cons.
    destruct (String.prefix sub (String c s)).
    + pose proof (count_from_nonneg sub (String.length sub - 1) s).
      cbn [orb]. apply Z.ltb_lt. lia.
    + exact IH.
Qed.

Lemma count_nonneg (s sub : string) : (0 ≤ PyStr.count s sub)%Z.
Proof. apply count_from_nonneg. Qed.

Lemma counts_positive (words : list string) (text : string) :
  Forall (fun w => w ≠ "") words →
  (0 <? sumZ (map (PyStr.count text) words))%Z = PyStr.any_in words text
  ∧ (0 ≤ sumZ (map (PyStr.count text) words))%Z.
Proof.
  unfold PyStr.any_in.
  induction 1 as [|w words Hw _ [IH1 IH2]]; [by cbn|].
  cbn [map sumZ fold_right existsb].
  fold (sumZ (map (PyStr.count text) words)).
  pose proof (count_nonneg text w) as H0.
  pose proof (count_positive w text Hw) as H1.
  split; [|lia].
  rewrite <- H1, <- IH1.
  destruct (0 <? PyStr.count text w)%Z eqn:E1,
    (0 <? sumZ (map (PyStr.count text) words))%Z eqn:E2; cbn [orb];
    rewrite ?Z.ltb_lt, ?Z.ltb_ge in *; lia.
Qed.

(** X10. The keyword flags agree with the keyword counts: [has_urgency_words]
    is true exactly when [num_urgency_words] is positive, and the same holds
    for the suspicious keywords; no count is negative. *)
Theorem keyword_flags_match_counts (text : string) :
  ∃ fs n_urgency n_suspicious,
    FeatureExtractor.extract_keyword_features text = Ok fs
    ∧ PyDict.get fs "num_urgency_words" = Some (VInt n_urgency)
    ∧ PyDict.get fs "has_urgency_words" = Some (VBool (0 <? n_urgency)%Z)
    ∧ PyDict.get fs "num_suspicious_keywords" = Some (VInt n_suspicious)
    ∧ PyDict.get fs "has_suspicious_keywords" = Some (VBool (0 <? n_suspicious)%Z)
    ∧ (0 ≤ n_urgency)%Z ∧ (0 ≤ n_suspicious)%Z.
Proof.
  unfold FeatureExtractor.extract_keyword_features.
  destruct (counts_positive FeatureExtractor.urgency_words (PyStr.lower text))
    as [Hu Hu0].
  { repeat (constructor; [discriminate|]). constructor. }
  destruct (counts_positive FeatureExtractor.suspicious_keywords (PyStr.lower text))
    as [Hs Hs0].
  { repeat (constructor; [discriminate|]). constructor. }
  eexists _, _, _. split; [reflexivity|].
  cbn [PyDict.get String.eqb Ascii.eqb Bool.eqb].
  rewrite Hu, Hs. by split_and!.
Qed.

Lemma count_chars_range (p : ascii → bool) (s : string) :
  (0 ≤ PyStr.count_chars p s ≤ PyStr.len s)%Z.
Proof.
  unfold PyStr.len. induction s as [|c s IH]; cbn [PyStr.count_chars String.length].
  - lia.
  - destruct (p c); lia.
Qed.

Lemma ratio_range (a b : Z) :
  (0 ≤ a ≤ b)%Z → (0 < b)%Z →
  (0 <= inject_Z a / inject_Z b)%Q ∧ (inject_Z a / inject_Z b <= 1)%Q.
Proof.
  intros Ha Hb.
  assert (0 < inject_Z b)%Q as Hb' by (by rewrite (Zlt_Qlt 0 b) in Hb).
  split.
  - apply Qle_shift_div_l; [exact Hb'|]. rewrite Qmult_0_l.
    change 0%Q with (inject_Z 0). rewrite <- Zle_Qle. lia.
  - apply Qle_shift_div_r; [exact Hb'|]. rewrite Qmult_1_l.
    rewrite <- Zle_Qle. lia.
Qed.

(** X11. [extract_text_features] counts no more upper-case letters than the
    text has characters, and [uppercase_ratio] lies between 0 and 1; for the
    empty text the ratio is 0 and nothing is divided. *)
Theorem uppercase_ratio_is_a_fraction (text : string) :
  ∃ fs upper ratio,
    FeatureExtractor.extract_text_features text = Ok fs
    ∧ PyDict.get fs "length" = Some (VInt (PyStr.len text))
    ∧ PyDict.get fs "num_uppercase" = Some (VInt upper)
    ∧ (0 ≤ upper ≤ PyStr.len text)%Z
    ∧ PyDict.get fs "uppercase_ratio" = Some ratio
    ∧ (0 <= to_float ratio)%Q ∧ (to_float ratio <= 1)%Q
    ∧ (text = "" → ratio = VInt 0).
Proof.
  unfold FeatureExtractor.extract_text_features.
  pose proof (count_chars_range PyStr.is_upper text) as Hup.
  assert (∃ avg, (if FeatureExtractor.truthy (PyStr.split text)
                  then VFloat <$> np_mean (map PyStr.len (PyStr.split text))
                  else Ok (VInt 0)) = Ok avg) as [avg ->].
  { destruct (PyStr.split text) as [|w ws]; cbn; eauto. }
  cbn [mbind result_bind].
  destruct (PyStr.len text >? 0)%Z eqn:Hlen.
  - unfold py_truediv.
    destruct (PyStr.len text =? 0)%Z eqn:E; [lia|].
    cbn [fmap result_fmap mbind result_bind].
    eexists _, _, _. split; [reflexivity|].
    cbn [PyDict.get String.eqb Ascii.eqb Bool.eqb].
    destruct (ratio_range (PyStr.count_chars PyStr.is_upper text) (PyStr.len text))
      as [H0 H1]; [exact Hup | lia |].
    split_and!; try reflexivity; try exact H0; try exact H1; try lia.
    intros ->. discriminate.
  - cbn [mbind result_bind].
    eexists _, _, _. split; [reflexivity|].
    cbn [PyDict.get String.eqb Ascii.eqb Bool.eqb].
    split_and!; try reflexivity; try lia; cbn; try discriminate.
Qed.

(* ===================================================================== *)
(** * The model object *)
(* ===================================================================== *)

Section ModelObject.
Context `{Library}.




Lemma train_on_custom_data_cases (self : SimplePhishingML.model)
    (emails_data : list email_data) (labels : list Z) :
  ∃ m' outcome,
    SimplePhishingML.train_on_custom_data self emails_data labels = (m', outcome)
    ∧ outcome ≠ Ok false
    ∧ SimplePhishingML.model_version m' = SimplePhishingML.model_version self
    ∧ (outcome = Ok true →
         trained m'
         ∧ length emails_data = length labels
         ∧ (4 ≤ length emails_data)%nat
         ∧ (2 ≤ sumZ labels)%Z
         ∧ (2 ≤ Z.of_nat (length labels) - sumZ labels)%Z).
Proof.
  unfold SimplePhishingML.train_on_custom_data.
  destruct (length emails_data =? length labels)%nat eqn:Hlen; cbn [negb];
    [|eexists _, _; split_and!; [reflexivity|done|done|done]].
  destruct (length emails_data <? 4)%nat eqn:Hfour;
    [eexists _, _; split_and!; [reflexivity|done|done|done]|].
  destruct ((sumZ labels <? 2)%Z || (Z.of_nat (length labels) - sumZ labels <? 2)%Z)
    eqn:Hbal; [eexists _, _; split_and!; [reflexivity|done|done|done]|].
  apply Nat.eqb_eq in Hlen. apply Nat.ltb_ge in Hfour.
  apply orb_false_iff in Hbal as [Hp Hl].
  apply Z.ltb_ge in Hp. apply Z.ltb_ge in Hl.
  destruct (SimplePhishingML.collect emails_data) as [[texts vectors]|e];
    [|eexists _, _; split_and!; [reflexivity|done|done|done]].
  destruct (tfidf_fit_transform tfidf_new texts) as [[vec X]|e];
    [|eexists _, _; split_and!; [reflexivity|done|done|done]].
  destruct (np_hstack X vectors) as [Xc|e];
    [|eexists _, _; split_and!; [reflexivity|done|done|done]].
  destruct (rf_fit rf_new Xc labels) as [clf|e];
    [|eexists _, _; split_and!; [reflexivity|done|done|done]].
  destruct (rf_predict clf Xc) as [preds|e];
    [|eexists _, _; split_and!; [reflexivity|done|done|done]].
  eexists _, _. split_and!; [reflexivity|done|done|].
  intros _. unfold trained. cbn. split_and!; eauto.
Qed.


End ModelObject.

(** X12. Training never answers False: it returns True or raises, and it keeps
    the version of the object.  When it returns True both the classifier and
    the vectorizer of the object are set, and the data passed the guards:
    as many labels as e-mails, at least four of them, and at least two of
    each class. *)
Theorem training_returns_true_or_raises `{Library}
    (self : SimplePhishingML.model)
    (emails_data : list email_data) (labels : list Z) :
  ∃ m' outcome,
    SimplePhishingML.train_on_custom_data self emails_data labels = (m', outcome)
    ∧ outcome ≠ Ok false
    ∧ SimplePhishingML.model_version m' = SimplePhishingML.model_version self
    ∧ (outcome = Ok true →
         trained m'
         ∧ length emails_data = length labels
         ∧ (4 ≤ length emails_data)%nat
         ∧ (2 ≤ sumZ labels)%Z
         ∧ (2 ≤ Z.of_nat (length labels) - sumZ labels)%Z).
Proof. apply train_on_custom_data_cases. Qed.



(* ===================================================================== *)
(** * What a retraining run does to the files *)
(* ===================================================================== *)

Section RunEffects.
Context `{Library}.








End RunEffects.







(* ===================================================================== *)
(** * The training records *)
(* ===================================================================== *)

Lemma count_types_disjoint (iocs : list Db.IOC) :
  (count_type "ipv4" iocs + count_type "url" iocs + count_type "email" iocs
   + count_type "domain" iocs ≤ Z.of_nat (length iocs))%Z.
Proof.
  unfold count_type. induction iocs as [|r iocs IH]; [cbn; lia|].
  cbn [List.filter length].
  destruct (String.eqb (Db.ioc_type r) "ipv4") eqn:E1;
    [apply String.eqb_eq in E1; rewrite E1; cbn; lia|].
  destruct (String.eqb (Db.ioc_type r) "url") eqn:E2;
    [apply String.eqb_eq in E2; rewrite E2; cbn; lia|].
  destruct (String.eqb (Db.ioc_type r) "email") eqn:E3;
    [apply String.eqb_eq in E3; rewrite E3; cbn; lia|].
  destruct (String.eqb (Db.ioc_type r) "domain") eqn:E4; cbn [length]; lia.
Qed.

(** X18. In a training record the four per-type counts are the numbers of stored
    indicators of the type, each flag says whether its count is positive,
    and the counts together never exceed [ioc_count], the number of all
    indicators of the e-mail. *)
Theorem training_record_counts (email : Db.Email) (iocs : list Db.IOC) :
  let r := AutoRetrainer.training_record email iocs in
  ioc_count r = Some (Z.of_nat (length iocs))
  ∧ ipv4_count r = Some (count_type "ipv4" iocs)
  ∧ url_count r = Some (count_type "url" iocs)
  ∧ email_count r = Some (count_type "email" iocs)
  ∧ domain_count r = Some (count_type "domain" iocs)
  ∧ has_ipv4 r = Some (0 <? count_type "ipv4" iocs)%Z
  ∧ has_url r = Some (0 <? count_type "url" iocs)%Z
  ∧ has_email r = Some (0 <? count_type "email" iocs)%Z
  ∧ (count_type "ipv4" iocs + count_type "url" iocs + count_type "email" iocs
     + count_type "domain" iocs ≤ Z.of_nat (length iocs))%Z.
Proof.
  intros r. unfold r, AutoRetrainer.training_record.
  cbn [ioc_count ipv4_count url_count email_count domain_count
       has_ipv4 has_url has_email].
  rewrite !ioc_counts_get0, !Z.gtb_ltb.
  split_and!; try reflexivity. apply count_types_disjoint.
Qed.

(* ===================================================================== *)
(** * The header helpers of the e-mail parser *)
(* ===================================================================== *)

Lemma prefix_char (a c : ascii) (s : string) :
  String.prefix (String a "") (String c s) = Ascii.eqb a c.
Proof.
  rewrite prefix_cons. destruct s; cbn; by rewrite andb_true_r.
Qed.

Lemma find_from_char (a : ascii) (pre rest : string) (i : Z) :
  PyStr.contains (String a "") pre = false →
  PyText.find_from (String a "") (pre +:+ String a rest) i
  = (i + PyStr.len pre)%Z.
Proof.
  unfold PyStr.len. revert i. induction pre as [|c pre IH]; intros i Hpre.
  - rewrite append_nil. cbn [PyText.find_from].
    rewrite prefix_char, Ascii.eqb_refl. cbn. lia.
  - rewrite contains_char_cons in Hpre.
    apply orb_false_iff in Hpre as [Hc Hpre].
    rewrite append_cons. cbn [PyText.find_from].
    rewrite prefix_char, Ascii.eqb_sym, Hc, IH by exact Hpre.
    cbn [String.length]. lia.
Qed.

Lemma substring_middle (pre mid post : string) :
  String.substring (String.length pre) (String.length mid) (pre +:+ mid +:+ post)
  = mid.
Proof.
  induction pre as [|c pre IH].
  - rewrite append_nil. cbn [String.length].
    induction mid as [|d mid IHm].
    + by destruct post.
    + rewrite append_cons. cbn [String.length String.substring]. by rewrite IHm.
  - rewrite append_cons. cbn [String.length String.substring]. exact IH.
Qed.

(** X19. [_extract_sender] returns the text between the first [<] and the first
    [>] of the From header when the [<] comes first, the empty text when the
    [>] comes first, and the whole header when either bracket is missing. *)
Theorem extract_sender_takes_the_bracketed_address
    (msg : string → option string) :
  (∀ name addr rest,
     msg "from" = Some (name +:+ "<" +:+ addr +:+ ">" +:+ rest) →
     PyStr.contains "<" name = false → PyStr.contains ">" name = false →
     PyStr.contains ">" addr = false →
     EmailParser._extract_sender msg = addr)
  ∧ (∀ pre mid rest,
       msg "from" = Some (pre +:+ ">" +:+ mid +:+ "<" +:+ rest) →
       PyStr.contains "<" pre = false → PyStr.contains "<" mid = false →
       PyStr.contains ">" pre = false →
       EmailParser._extract_sender msg = "")
  ∧ (PyStr.contains "<" (EmailParser.header msg "from") = false
     ∨ PyStr.contains ">" (EmailParser.header msg "from") = false →
     EmailParser._extract_sender msg = EmailParser.header msg "from").
Proof.
  split_and!.
  - intros name addr rest Hmsg Hlt Hgt Haddr.
    change (name +:+ "<" +:+ addr +:+ ">" +:+ rest)
      with (name +:+ String "<" (addr +:+ String ">" rest)) in Hmsg.
    unfold EmailParser._extract_sender, EmailParser.header. rewrite Hmsg.
    cbn [default from_option]. unfold id.
    set (h := name +:+ String "<" (addr +:+ String ">" rest)).
    assert (PyStr.contains "<" h = true) as ->.
    { unfold h. rewrite contains_char_append, contains_char_cons.
      cbn. by rewrite orb_true_r. }
    assert (PyStr.contains ">" h = true) as ->.
    { unfold h. rewrite contains_char_append, contains_char_cons,
        contains_char_append, contains_char_cons.
      rewrite Ascii.eqb_refl. cbn. by rewrite !orb_true_r. }
    cbn [andb]. unfold PyText.find.
    assert (PyText.find_from "<" h 0 = PyStr.len name) as ->.
    { unfold h. rewrite find_from_char by exact Hlt. lia. }
    assert (h = (name +:+ "<") +:+ addr +:+ String ">" rest) as Hh.
    { unfold h. rewrite !QuadMatch.append_assoc. reflexivity. }
    assert (PyStr.len (name +:+ "<") = (PyStr.len name + 1)%Z) as Hlen1.
    { unfold PyStr.len. rewrite QuadMatch.length_append. cbn. lia. }
    assert (PyText.find_from ">" h 0 = (PyStr.len name + 1 + PyStr.len addr)%Z)
      as ->.
    { rewrite Hh, <- QuadMatch.append_assoc, find_from_char.
      - unfold PyStr.len in *. rewrite QuadMatch.length_append. lia.
      - rewrite !contains_char_append, Hgt, Haddr. reflexivity. }
    unfold PyText.slice, PyText.bound.
    assert (PyStr.len h
            = (PyStr.len name + 1 + PyStr.len addr + 1 + PyStr.len rest)%Z) as Hlenh.
    { rewrite Hh. unfold PyStr.len in *. rewrite !QuadMatch.length_append.
      cbn [String.length]. lia. }
    unfold PyStr.len in *.
    repeat match goal with
           | |- context [(?a <? ?b)%Z] => destruct (Z.ltb_spec a b); [lia|]
           end.
    destruct (Z.leb_spec (Z.min (Z.of_nat (String.length name) + 1
                                 + Z.of_nat (String.length addr))
                            (Z.of_nat (String.length h)))
                (Z.min (Z.of_nat (String.length name) + 1)
                   (Z.of_nat (String.length h)))) as [Hle|Hgt'].
    + assert (String.length addr = 0%nat) as Ha by lia.
      destruct addr; [reflexivity | discriminate].
    + rewrite !Z.min_l by lia.
      replace (Z.to_nat (Z.of_nat (String.length name) + 1))
        with (String.length (name +:+ "<")) by (rewrite QuadMatch.length_append; cbn; lia).
      replace (Z.to_nat _) with (String.length addr) by lia.
      rewrite Hh. apply substring_middle.
  - intros pre mid rest Hmsg Hlt Hmid Hgt.
    change (pre +:+ ">" +:+ mid +:+ "<" +:+ rest)
      with (pre +:+ String ">" (mid +:+ String "<" rest)) in Hmsg.
    unfold EmailParser._extract_sender, EmailParser.header. rewrite Hmsg.
    cbn [default from_option]. unfold id.
    set (h := pre +:+ String ">" (mid +:+ String "<" rest)).
    assert (PyStr.contains "<" h = true) as ->.
    { unfold h. rewrite contains_char_append, contains_char_cons,
        contains_char_append, contains_char_cons.
      rewrite Ascii.eqb_refl. cbn. by rewrite !orb_true_r. }
    assert (PyStr.contains ">" h = true) as ->.
    { unfold h. rewrite contains_char_append, contains_char_cons.
      cbn. by rewrite orb_true_r. }
    cbn [andb]. unfold PyText.find.
    assert (PyText.find_from ">" h 0 = PyStr.len pre) as ->.
    { unfold h. rewrite find_from_char by exact Hgt. lia. }
    assert (h = (pre +:+ ">" +:+ mid) +:+ String "<" rest) as Hh.
    { unfold h. rewrite !QuadMatch.append_assoc. reflexivity. }
    assert (PyText.find_from "<" h 0 = (PyStr.len pre + 1 + PyStr.len mid)%Z)
      as ->.
    { rewrite Hh, find_from_char.
      - unfold PyStr.len. rewrite !QuadMatch.length_append. cbn [String.length]. lia.
      - rewrite !contains_char_append, Hlt, Hmid. reflexivity. }
    unfold PyText.slice, PyText.bound.
    assert (PyStr.len h
            = (PyStr.len pre + 1 + PyStr.len mid + 1 + PyStr.len rest)%Z) as Hlenh.
    { rewrite Hh. unfold PyStr.len. rewrite !QuadMatch.length_append.
      cbn [String.length]. lia. }
    unfold PyStr.len in *.
    repeat match goal with
           | |- context [(?a <? ?b)%Z] => destruct (Z.ltb_spec a b); [lia|]
           end.
    match goal with
    | |- context [(?a <=? ?b)%Z] => destruct (Z.leb_spec a b); [reflexivity|lia]
    end.
  - intros Hmissing. unfold EmailParser._extract_sender.
    destruct Hmissing as [-> | ->]; [reflexivity|].
    by rewrite andb_false_r.
Qed.

(** The usual form of a From header. *)
Lemma extract_sender_takes_the_bracketed_address_witness :
  EmailParser._extract_sender
    (fun name => if String.eqb name "from"
                 then Some "Ann <ann@example.com>" else None)
  = "ann@example.com".
Proof.
  destruct (extract_sender_takes_the_bracketed_address
              (fun name => if String.eqb name "from"
                           then Some "Ann <ann@example.com>" else None))
    as (Hfirst & _).
  apply (Hfirst "Ann " "ann@example.com" ""); reflexivity.
Defined.

Lemma rstrip_fixed (s : string) : PyText.rstrip (PyText.rstrip s) = PyText.rstrip s.
Proof.
  induction s as [|c s IH]; [reflexivity|].
  cbn [PyText.rstrip].
  destruct (PyText.rstrip s) as [|d kept] eqn:E.
  - destruct (PyStr.is_space c) eqn:Ec; [reflexivity|].
    cbn [PyText.rstrip]. by rewrite Ec.
  - cbn [PyText.rstrip]. cbn [PyText.rstrip] in IH.
    by rewrite IH.
Qed.

Lemma lstrip_fixed_cons (c : ascii) (s : string) :
  PyStr.is_space c = false → PyText.lstrip (String c s) = String c s.
Proof. intros Hc. cbn [PyText.lstrip]. by rewrite Hc. Qed.

Lemma lstrip_head (s : string) :
  PyText.lstrip s = ""
  ∨ ∃ c rest, PyText.lstrip s = String c rest ∧ PyStr.is_space c = false.
Proof.
  induction s as [|c s IH]; [by left|].
  cbn [PyText.lstrip]. destruct (PyStr.is_space c) eqn:Ec; [exact IH|].
  right. by exists c, s.
Qed.

Lemma rstrip_head (c : ascii) (s : string) :
  PyStr.is_space c = false →
  ∃ rest, PyText.rstrip (String c s) = String c rest.
Proof.
  intros Hc. cbn [PyText.rstrip].
  destruct (PyText.rstrip s); [rewrite Hc|]; eauto.
Qed.

Lemma strip_fixed (s : string) :
  PyText.strip (PyText.strip s) = PyText.strip s.
Proof.
  unfold PyText.strip.
  destruct (lstrip_head s) as [-> | (c & rest & -> & Hc)]; [reflexivity|].
  destruct (rstrip_head c rest Hc) as [kept Hk].
  rewrite Hk, (lstrip_fixed_cons c kept Hc), <- Hk. apply rstrip_fixed.
Qed.

Lemma lstrip_keeps_out (a : ascii) (s : string) :
  PyStr.contains (String a "") s = false →
  PyStr.contains (String a "") (PyText.lstrip s) = false.
Proof.
  induction s as [|c s IH]; [done|].
  cbn [PyText.lstrip]. destruct (PyStr.is_space c); [|done].
  rewrite contains_char_cons. intros [_ H]%orb_false_iff. by apply IH.
Qed.

Lemma rstrip_keeps_out (a : ascii) (s : string) :
  PyStr.contains (String a "") s = false →
  PyStr.contains (String a "") (PyText.rstrip s) = false.
Proof.
  induction s as [|c s IH]; [done|].
  rewrite contains_char_cons. intros [Hc H]%orb_false_iff.
  specialize (IH H). cbn [PyText.rstrip].
  destruct (PyText.rstrip s) as [|d kept].
  - destruct (PyStr.is_space c); [done|].
    by rewrite contains_char_cons, Hc.
  - by rewrite contains_char_cons, Hc, IH.
Qed.

Lemma split_on_pieces (sep : ascii) (s : string) :
  Forall (fun piece => PyStr.contains (String sep "") piece = false)
    (PyText.split_on sep s)
  ∧ Z.of_nat (length (PyText.split_on sep s))
    = (PyStr.count s (String sep "") + 1)%Z.
Proof.
  unfold PyStr.count.
  induction s as [|c s [IH1 IH2]]; [by split; [repeat constructor|]|].
  cbn [PyText.split_on PyStr.count_from String.length Nat.sub].
  rewrite prefix_char, (Ascii.eqb_sym sep c).
  destruct (Ascii.eqb c sep) eqn:Ec.
  - split; [by constructor|]. cbn [length]. lia.
  - destruct (PyText.split_on sep s) as [|w ws]; [cbn in IH2; pose proof (count_from_nonneg (String sep "") 0 s); lia|].
    apply Forall_cons in IH1 as [Hw Hws]. split.
    + constructor; [|exact Hws]. by rewrite contains_char_cons, Ec, Hw.
    + cbn [length] in *. lia.
Qed.

Lemma extract_recipients_eq (msg : string → option string) :
  EmailParser._extract_recipients msg
  = recipients_of (EmailParser.header msg "to")
    ++ recipients_of (EmailParser.header msg "cc")
    ++ recipients_of (EmailParser.header msg "bcc").
Proof.
  unfold EmailParser._extract_recipients, recipients_of. cbn [fold_left].
  destruct (String.eqb (EmailParser.header msg "to") ""),
    (String.eqb (EmailParser.header msg "cc") ""),
    (String.eqb (EmailParser.header msg "bcc") "");
    by rewrite ?app_nil_l, ?app_nil_r, <- ?app_assoc.
Qed.

Lemma recipients_of_spec (value : string) :
  Forall (fun r => PyText.strip r = r ∧ PyStr.contains "," r = false)
    (recipients_of value)
  ∧ Z.of_nat (length (recipients_of value))
    = if String.eqb value "" then 0%Z else (PyStr.count value "," + 1)%Z.
Proof.
  unfold recipients_of. destruct (String.eqb value ""); [by split|].
  destruct (split_on_pieces "," value) as [Hp Hn].
  rewrite length_map. split; [|exact Hn].
  apply Forall_map. eapply Forall_impl; [exact Hp|].
  intros piece Hpiece. cbn beta. split; [apply strip_fixed|].
  unfold PyText.strip. by apply rstrip_keeps_out, lstrip_keeps_out.
Qed.

(** X20. The recipients are the comma-separated entries of the To, Cc and Bcc
    headers, in this order, an absent or empty header giving none.  Every
    entry is stripped of surrounding blanks and contains no comma, and a
    header that is not empty gives one entry more than it has commas. *)
Theorem extract_recipients_splits_on_commas (msg : string → option string) :
  let entries name :=
    let value := EmailParser.header msg name in
    if String.eqb value "" then 0%Z else (PyStr.count value "," + 1)%Z in
  Forall (fun r => PyText.strip r = r ∧ PyStr.contains "," r = false)
    (EmailParser._extract_recipients msg)
  ∧ Z.of_nat (length (EmailParser._extract_recipients msg))
    = (entries "to" + entries "cc" + entries "bcc")%Z
  ∧ EmailParser._extract_recipients msg
    = recipients_of (EmailParser.header msg "to")
      ++ recipients_of (EmailParser.header msg "cc")
      ++ recipients_of (EmailParser.header msg "bcc").
Proof.
  intros entries. rewrite extract_recipients_eq.
  destruct (recipients_of_spec (EmailParser.header msg "to")) as [F1 N1].
  destruct (recipients_of_spec (EmailParser.header msg "cc")) as [F2 N2].
  destruct (recipients_of_spec (EmailParser.header msg "bcc")) as [F3 N3].
  split_and!; [|rewrite !length_app; unfold entries; lia | reflexivity].
  by rewrite !Forall_app.
Qed.

Lemma split_on_nonempty (sep : ascii) (s : string) : PyText.split_on sep s ≠ [].
Proof.
  destruct s as [|c s]; cbn [PyText.split_on]; [discriminate|].
  destruct (Ascii.eqb c sep); [discriminate|].
  by destruct (PyText.split_on sep s).
Qed.

Lemma split_on_last (sep : ascii) (s : string) :
  List.last (PyText.split_on sep s) ""
  = match PyText.split_last sep s with
    | Some (_, after) => after
    | None => s
    end.
Proof.
  induction s as [|c s IH]; [reflexivity|].
  cbn [PyText.split_on PyText.split_last].
  destruct (PyText.split_last sep s) as [[before after]|] eqn:E.
  - destruct (Ascii.eqb c sep).
    + destruct (PyText.split_on sep s) as [|w ws] eqn:Es; [|exact IH].
      by destruct (split_on_nonempty sep s).
    + destruct (PyText.split_on sep s) as [|w [|w' ws]] eqn:Es.
      * by destruct (split_on_nonempty sep s).
      * cbn in IH. subst w.
        apply split_last_some in E as [-> Hafter].
        exfalso.
        destruct (split_on_pieces sep (before +:+ String sep after)) as [_ Hn].
        rewrite Es in Hn. cbn [length] in Hn.
        assert (0 < PyStr.count (before +:+ String sep after) (String sep ""))%Z;
          [|lia].
        apply Z.ltb_lt. rewrite count_positive by discriminate.
        rewrite contains_char_append, contains_char_cons, Ascii.eqb_refl.
        apply orb_true_r.
      * exact IH.
  - destruct (Ascii.eqb c sep) eqn:Ec.
    + destruct (PyText.split_on sep s) as [|w ws] eqn:Es; [by destruct s|].
      cbn [List.last] in *. destruct ws; exact IH.
    + apply split_last_none in E.
      destruct (PyText.split_on sep s) as [|w [|w' ws]] eqn:Es.
      * by destruct (split_on_nonempty sep s).
      * cbn in IH. by subst w.
      * exfalso.
        destruct (split_on_pieces sep s) as [_ Hn].
        rewrite Es in Hn. cbn [length] in Hn.
        assert (PyStr.count s (String sep "") = 0)%Z; [|lia].
        pose proof (count_positive (String sep "") s ltac:(discriminate)) as Hc.
        rewrite E in Hc. apply Z.ltb_ge in Hc.
        pose proof (count_nonneg s (String sep "")). lia.
Qed.

(** X21. In the features of the parser, [has_external_links] is true exactly
    when [num_links] is positive.  [sender_domain] is the text after the last
    [@] of the sender, so it never contains an [@], and it is empty when the
    sender has none.  No length or count is negative. *)
Theorem parsed_features_agree (e : email_data) :
  let f := EmailParser.extract_features e in
  EmailParser.has_external_links f = (0 <? EmailParser.num_links f)%Z
  ∧ PyStr.contains "@" (EmailParser.sender_domain f) = false
  ∧ (∀ local domain,
       sender e = Some (local +:+ "@" +:+ domain) →
       PyStr.contains "@" domain = false →
       EmailParser.sender_domain f = domain)
  ∧ (PyStr.contains "@" (default "" (sender e)) = false →
     EmailParser.sender_domain f = "")
  ∧ (0 ≤ EmailParser.email_length f)%Z ∧ (0 ≤ EmailParser.num_links f)%Z
  ∧ (0 ≤ EmailParser.subject_length f)%Z
  ∧ (0 ≤ EmailParser.num_attachments f)%Z
  ∧ (0 ≤ EmailParser.num_recipients f)%Z.
Proof.
  intros f. unfold f, EmailParser.extract_features.
  cbn [EmailParser.has_external_links EmailParser.num_links
       EmailParser.sender_domain EmailParser.email_length
       EmailParser.subject_length EmailParser.num_attachments
       EmailParser.num_recipients].
  set (body := default "" (body e)).
  set (from := default "" (sender e)).
  pose proof (count_nonneg body "http://") as H1.
  pose proof (count_nonneg body "https://") as H2.
  pose proof (count_positive "http://" body ltac:(discriminate)) as P1.
  pose proof (count_positive "https://" body ltac:(discriminate)) as P2.
  split_and!; unfold PyStr.len; try lia.
  - unfold EmailParser._has_external_links. rewrite <- P1, <- P2.
    destruct (0 <? PyStr.count body "http://")%Z eqn:E1,
      (0 <? PyStr.count body "https://")%Z eqn:E2,
      (0 <? PyStr.count body "http://" + PyStr.count body "https://")%Z eqn:E3;
      cbn [orb]; rewrite ?Z.ltb_lt, ?Z.ltb_ge in *; lia || reflexivity.
  - destruct (PyStr.contains "@" from) eqn:Hat; [|reflexivity].
    rewrite split_on_last.
    destruct (PyText.split_last "@" from) as [[before after]|] eqn:E.
    + by apply split_last_some in E as [_ ?].
    + apply split_last_none in E. congruence.
  - intros local domain Hsender Hdomain.
    unfold from. rewrite Hsender. cbn [default from_option]. unfold id.
    change ("@" +:+ domain) with (String "@" domain).
    rewrite contains_char_append, contains_char_cons, Ascii.eqb_refl.
    cbn [orb]. rewrite orb_true_r, split_on_last.
    by rewrite (split_last_append "@" local domain Hdomain).
  - by intros ->.
Qed.

(* ===================================================================== *)
(** * The shape of the indicator values *)
(* ===================================================================== *)























